(** * STREFEX entitlement engine: plan catalog, limit overrides, subscription store

    A shallow embedding of [src/services/stripeService.js] (plan catalog,
    [getPlanById], [getEffectiveLimits], [getTierLevel]) and of
    [src/services/featureFlags.js] (promo codes, the subscription store with
    its transitions and its evaluator queries), followed by the properties
    proved about them. Modules of their own hold the per-industry
    subscriptions ([subscriptionService.js], [IndustryGuard.jsx]), the
    superadmin check ([superadminAuth.js], [capRole] of [authService.js]),
    the industry and category selection ([industryStore.js]) and the plan a
    sign-up starts on ([Register.jsx]).

    Modelling conventions.
    - A JS object used as a dictionary ([plan.limits], the override tables,
      [PROMO_CODES], the store's [overrides]) is a [gmap string _]; a property
      read [o[k]] of a table by one of its own keys is the lookup [o !! k].
      Where the key comes from a caller ([limits[limitKey]],
      [base[featureKey]], [featureKey in overrides],
      [selectedCategories[industryId]]) the read goes through [js_get],
      which also finds the members every object inherits from
      [Object.prototype]. The override tables need no such care: the spread
      of an inherited member adds nothing, as [{}] does. [hasMinimumTier]
      says at its definition which reads of [TIER_LEVELS] it covers.
    - An object spread [{...a, ...b}] is the left-biased union [b ∪ a]; a
      trailing [k: v] in the literal is [<[k:=v]>].
    - A plan id or an account type handed in by a caller is an
      [option string]: [None] stands for [null] and [undefined] (strict
      equality with a string literal fails on both, and neither names a key
      of a table).
    - Instants are integers, the milliseconds since the epoch; the ISO string
      kept in [trialEndsAt] is represented by the instant it denotes
      ([new Date(d.toISOString())] is [d] again). One call reads the clock
      once, and the clock is a time value well inside the range of [Date].
      Day counts and item counts are integers; a day count handed in by a
      caller can lead out of the range of [Date], where [toISOString]
      throws.
    - Strings are sequences of one-byte characters; [trim], [toUpperCase]
      and [toLowerCase] are the built-ins on ASCII text, and the statements
      that depend on what they do say so ([ascii_only]). *)

From stdpp Require Import base option strings gmap fin_maps.
From Stdlib Require Import ZArith Ascii String Bool Lia.

Local Open Scope string_scope.
Local Open Scope Z_scope.

(** ** Values

    A limit is a boolean flag, a finite number or [Infinity]. A read by a
    name such as [constructor] or [toString] finds no limit but a function
    of [Object.prototype] (for [__proto__] the prototype itself), and
    arithmetic on such a member gives [NaN]; the evaluator hands both
    through, so they are values too. *)

Inductive value : Type :=
  | VBool (b : bool)
  | VNum (n : Z)
  | VInfinity
  | VMember      (* a member inherited from [Object.prototype] *)
  | VNaN.

#[global] Instance value_eq_dec : EqDecision value.
Proof. solve_decision. Defined.

(** The names every object inherits from [Object.prototype]. *)
Definition Object_prototype_names : list string :=
  [ "constructor"; "hasOwnProperty"; "isPrototypeOf"; "propertyIsEnumerable";
    "toLocaleString"; "toString"; "valueOf"; "__proto__";
    "__defineGetter__"; "__defineSetter__"; "__lookupGetter__";
    "__lookupSetter__" ].

(** What the read [o[k]] finds in an object literal used as a table: the
    value under an own key, else an inherited member, else nothing. *)
Inductive read (A : Type) : Type :=
  | Own (a : A)
  | Inherited
  | Undefined.
Arguments Own {A} a.
Arguments Inherited {A}.
Arguments Undefined {A}.

Definition js_get {A : Type} (o : gmap string A) (k : string) : read A :=
  match o !! k with
  | Some a => Own a
  | None =>
      if bool_decide (k ∈ Object_prototype_names) then Inherited else Undefined
  end.

(** The range of [Date]: 8.64e15 milliseconds either side of the epoch.
    [toISOString] throws a [RangeError] outside it. *)
Definition MAX_TIME : Z := 8640000000000000.

Definition valid_time (t : Z) : bool :=
  (- MAX_TIME <=? t) && (t <=? MAX_TIME).

(** ** stripeService.js *)

Module TIERS.
Definition START : Z := 0.
Definition BASIC : Z := 1.
Definition STANDARD : Z := 2.
Definition PREMIUM : Z := 3.
Definition ENTERPRISE : Z := 4.
End TIERS.

(** The fields of a plan that the entitlement logic reads. The display
    fields (name, prices, feature blurbs, storage labels) play no part in
    [getEffectiveLimits] or [getTierLevel] and are left out. [tier] is
    optional because [getTierLevel] guards it with [??]. *)
Record Plan : Type := mkPlan {
  id : string;
  tier : option Z;
  sellerOnly : bool;
  limits : gmap string value;
}.

Definition start_limits : gmap string value :=
  list_to_map [
    ("maxProjects", VNum 3);
    ("maxUsers", VNum 1);
    ("maxAssets", VNum 10);
    ("maxStorageGB", VNum 1);
    ("maxIndustries", VNum 1);
    ("maxCategories", VNum 1);
    ("maxServiceCategories", VNum 1);
    ("basicDashboard", VBool true);
    ("companyProfile", VBool true);
    ("basicAnalytics", VBool false);
    ("advancedReports", VBool false);
    ("customIntegrations", VBool false);
    ("auditManagement", VBool false);
    ("costManagement", VBool false);
    ("productionManagement", VBool false);
    ("productionStandard", VBool false);
    ("enterpriseManagement", VBool false);
    ("teamManagement", VBool false);
    ("messenger", VBool false);
    ("profileContacts", VBool false);
    ("aiInsights", VBool false);
    ("erpIntegrations", VBool false);
    ("procurement", VBool false);
    ("contractManagement", VBool false);
    ("spendAnalysis", VBool false);
    ("complianceEsg", VBool false);
    ("templateLibrary", VBool false);
    ("auditLogs", VBool false);
    ("emailSupport", VBool false);
    ("prioritySupport", VBool false);
    ("multipleIndustries", VBool false);
    ("executiveSummary", VBool false);
    ("projectAuditSchedule", VBool false)
  ].

Definition basic_limits : gmap string value :=
  list_to_map [
    ("maxProjects", VNum 10);
    ("maxUsers", VNum 5);
    ("maxAssets", VNum 50);
    ("maxStorageGB", VNum 5);
    ("maxIndustries", VInfinity);
    ("maxCategories", VInfinity);
    ("maxServiceCategories", VInfinity);
    ("basicDashboard", VBool true);
    ("companyProfile", VBool true);
    ("basicAnalytics", VBool true);
    ("advancedReports", VBool false);
    ("customIntegrations", VBool false);
    ("auditManagement", VBool false);
    ("costManagement", VBool false);
    ("productionManagement", VBool false);
    ("productionStandard", VBool false);
    ("enterpriseManagement", VBool false);
    ("teamManagement", VBool true);
    ("messenger", VBool false);
    ("profileContacts", VBool false);
    ("aiInsights", VBool false);
    ("erpIntegrations", VBool false);
    ("procurement", VBool false);
    ("contractManagement", VBool false);
    ("spendAnalysis", VBool false);
    ("complianceEsg", VBool false);
    ("templateLibrary", VBool false);
    ("auditLogs", VBool false);
    ("emailSupport", VBool true);
    ("prioritySupport", VBool false);
    ("multipleIndustries", VBool true);
    ("executiveSummary", VBool false);
    ("projectAuditSchedule", VBool false)
  ].

Definition standard_limits : gmap string value :=
  list_to_map [
    ("maxProjects", VNum 50);
    ("maxUsers", VNum 25);
    ("maxAssets", VNum 500);
    ("maxStorageGB", VNum 50);
    ("maxIndustries", VInfinity);
    ("maxCategories", VInfinity);
    ("maxServiceCategories", VInfinity);
    ("basicDashboard", VBool true);
    ("companyProfile", VBool true);
    ("basicAnalytics", VBool true);
    ("advancedReports", VBool true);
    ("customIntegrations", VBool false);
    ("auditManagement", VBool false);
    ("costManagement", VBool false);
    ("productionManagement", VBool false);
    ("productionStandard", VBool false);
    ("enterpriseManagement", VBool false);
    ("teamManagement", VBool true);
    ("messenger", VBool false);
    ("profileContacts", VBool false);
    ("aiInsights", VBool false);
    ("erpIntegrations", VBool false);
    ("procurement", VBool false);
    ("contractManagement", VBool false);
    ("spendAnalysis", VBool false);
    ("complianceEsg", VBool false);
    ("templateLibrary", VBool false);
    ("auditLogs", VBool false);
    ("emailSupport", VBool true);
    ("prioritySupport", VBool true);
    ("multipleIndustries", VBool true);
    ("executiveSummary", VBool true);
    ("projectAuditSchedule", VBool false)
  ].

Definition premium_limits : gmap string value :=
  list_to_map [
    ("maxProjects", VInfinity);
    ("maxUsers", VInfinity);
    ("maxAssets", VInfinity);
    ("maxStorageGB", VNum 100);
    ("storagePerUser", VBool true);
    ("maxIndustries", VInfinity);
    ("maxCategories", VInfinity);
    ("maxServiceCategories", VInfinity);
    ("basicDashboard", VBool true);
    ("companyProfile", VBool true);
    ("basicAnalytics", VBool true);
    ("advancedReports", VBool true);
    ("customIntegrations", VBool true);
    ("auditManagement", VBool true);
    ("costManagement", VBool true);
    ("productionManagement", VBool true);
    ("productionStandard", VBool true);
    ("enterpriseManagement", VBool false);
    ("teamManagement", VBool true);
    ("messenger", VBool true);
    ("profileContacts", VBool true);
    ("aiInsights", VBool false);
    ("erpIntegrations", VBool false);
    ("procurement", VBool false);
    ("contractManagement", VBool false);
    ("spendAnalysis", VBool false);
    ("complianceEsg", VBool false);
    ("templateLibrary", VBool false);
    ("auditLogs", VBool false);
    ("emailSupport", VBool true);
    ("prioritySupport", VBool true);
    ("multipleIndustries", VBool true);
    ("executiveSummary", VBool true);
    ("projectAuditSchedule", VBool true)
  ].

Definition enterprise_limits : gmap string value :=
  list_to_map [
    ("maxProjects", VInfinity);
    ("maxUsers", VInfinity);
    ("maxAssets", VInfinity);
    ("maxStorageGB", VNum 500);
    ("storagePerUser", VBool true);
    ("maxIndustries", VInfinity);
    ("maxCategories", VInfinity);
    ("maxServiceCategories", VInfinity);
    ("basicDashboard", VBool true);
    ("companyProfile", VBool true);
    ("basicAnalytics", VBool true);
    ("advancedReports", VBool true);
    ("customIntegrations", VBool true);
    ("auditManagement", VBool true);
    ("costManagement", VBool true);
    ("productionManagement", VBool true);
    ("productionStandard", VBool true);
    ("enterpriseManagement", VBool true);
    ("teamManagement", VBool true);
    ("messenger", VBool true);
    ("profileContacts", VBool true);
    ("aiInsights", VBool true);
    ("erpIntegrations", VBool true);
    ("procurement", VBool true);
    ("contractManagement", VBool true);
    ("spendAnalysis", VBool true);
    ("complianceEsg", VBool true);
    ("templateLibrary", VBool true);
    ("auditLogs", VBool true);
    ("emailSupport", VBool true);
    ("prioritySupport", VBool true);
    ("multipleIndustries", VBool true);
    ("executiveSummary", VBool true);
    ("projectAuditSchedule", VBool true)
  ].

Definition plan_start : Plan :=
  mkPlan "start" (Some TIERS.START) true start_limits.
Definition plan_basic : Plan :=
  mkPlan "basic" (Some TIERS.BASIC) false basic_limits.
Definition plan_standard : Plan :=
  mkPlan "standard" (Some TIERS.STANDARD) false standard_limits.
Definition plan_premium : Plan :=
  mkPlan "premium" (Some TIERS.PREMIUM) false premium_limits.
Definition plan_enterprise : Plan :=
  mkPlan "enterprise" (Some TIERS.ENTERPRISE) false enterprise_limits.

Definition PLANS : list Plan :=
  [plan_start; plan_basic; plan_standard; plan_premium; plan_enterprise].

(** Buyer limit overrides (restrict industries / categories). *)
Definition BUYER_LIMIT_OVERRIDES : gmap string (gmap string value) :=
  list_to_map [
    ("basic", list_to_map [("maxIndustries", VNum 1); ("maxCategories", VNum 1);
                           ("multipleIndustries", VBool false)]);
    ("standard", list_to_map [("maxIndustries", VNum 3); ("maxCategories", VNum 3);
                              ("executiveSummary", VBool true)]);
    ("premium", ∅);
    ("enterprise", ∅)
  ].

(** Service provider limit overrides. *)
Definition SERVICE_PROVIDER_LIMIT_OVERRIDES : gmap string (gmap string value) :=
  list_to_map [
    ("start", list_to_map [("maxIndustries", VNum 0); ("maxCategories", VNum 0);
                           ("maxServiceCategories", VNum 1);
                           ("multipleIndustries", VBool false);
                           ("executiveSummary", VBool false)]);
    ("basic", list_to_map [("maxIndustries", VNum 0); ("maxCategories", VNum 0);
                           ("maxServiceCategories", VInfinity);
                           ("executiveSummary", VBool false)]);
    ("standard", list_to_map [("maxIndustries", VNum 0); ("maxCategories", VNum 0);
                              ("maxServiceCategories", VInfinity);
                              ("executiveSummary", VBool false)]);
    ("premium", list_to_map [("maxIndustries", VNum 0); ("maxCategories", VNum 0);
                             ("maxServiceCategories", VInfinity)]);
    ("enterprise", list_to_map [("maxIndustries", VNum 0); ("maxCategories", VNum 0);
                                ("maxServiceCategories", VInfinity)])
  ].

(** [p.id === planId]: strict equality of a plan's id with the argument. *)
Definition id_is (planId : option string) (p : Plan) : bool :=
  bool_decide (Some (id p) = planId).

(** [PLANS.find((p) => p.id === planId) || PLANS[0]] *)
Definition getPlanById (planId : option string) : Plan :=
  default plan_start (List.find (id_is planId) PLANS).

(** [TABLE[planId] || {}] for the two override tables. *)
Definition patch_for (table : gmap string (gmap string value))
    (planId : option string) : gmap string value :=
  default ∅ (planId ≫= (table !!.)).

Definition getEffectiveLimits (planId accountType : option string)
    : gmap string value :=
  let plan := getPlanById planId in
  let base := limits plan in
  if bool_decide (accountType = Some "buyer") then
    let overrides := patch_for BUYER_LIMIT_OVERRIDES planId in
    overrides ∪ base
  else if bool_decide (accountType = Some "service_provider") then
    let overrides := patch_for SERVICE_PROVIDER_LIMIT_OVERRIDES planId in
    <["executiveSummary" := VBool false]> (overrides ∪ base)
  else
    <["executiveSummary" := VBool false]> base.

Definition BUYER_TRIAL_DAYS : Z := 30.

(** [PLANS.filter((p) => !p.sellerOnly)] for buyers, [PLANS] otherwise. *)
Definition getPlansForAccountType (accountType : option string) : list Plan :=
  if bool_decide (accountType = Some "buyer")
  then List.filter (fun p => negb (sellerOnly p)) PLANS
  else PLANS.

(** [plan.tier ?? TIERS.START] *)
Definition getTierLevel (planId : option string) : Z :=
  let plan := getPlanById planId in
  default TIERS.START (tier plan).

(** ** featureFlags.js *)

(** *** Promo codes *)

Record Promo : Type := mkPromo {
  trialDays : Z;
  promo_planId : string;
  description : string;
}.

Definition PROMO_CODES : gmap string Promo :=
  list_to_map [
    ("STREFEX30", mkPromo 30 "basic" "30-day Basic trial");
    ("STREFEX60", mkPromo 60 "basic" "60-day Basic trial");
    ("STREFEX90", mkPromo 90 "basic" "90-day Basic trial");
    ("STREFEXPRO", mkPromo 30 "standard" "30-day Standard trial");
    ("STREFEXPRO60", mkPromo 60 "standard" "60-day Standard trial");
    ("STREFEXPREM", mkPromo 30 "premium" "30-day Premium trial");
    ("STREFEXVIP", mkPromo 90 "premium" "90-day Premium trial")
  ].

(** [PROMO_CODES[code] || null]. The function is local to the module and
    its one caller, [applyPromoCode], hands in an upper-cased code; such a
    code is never a name inherited from [Object.prototype], so the read is
    a lookup among the table's own keys. *)
Definition getPromoConfig (code : string) : option Promo :=
  PROMO_CODES !! code.

(** *** String.prototype.trim and toUpperCase

    Strings are sequences of one-byte characters and the two built-ins are
    modelled on ASCII, the alphabet of promo codes: the white space removed
    by [trim] is TAB, LF, VT, FF, CR and SPACE, and [toUpperCase] maps
    [a]..[z] to [A]..[Z] and leaves every other character alone. *)

Definition isWhiteSpace (c : ascii) : bool :=
  match N_of_ascii c with
  | 9%N | 10%N | 11%N | 12%N | 13%N | 32%N => true
  | _ => false
  end.

Fixpoint trimStart (s : string) : string :=
  match s with
  | EmptyString => EmptyString
  | String c s' => if isWhiteSpace c then trimStart s' else s
  end.

Fixpoint trimEnd (s : string) : string :=
  match s with
  | EmptyString => EmptyString
  | String c s' =>
      match trimEnd s' with
      | EmptyString => if isWhiteSpace c then EmptyString else String c EmptyString
      | t => String c t
      end
  end.

Definition trim (s : string) : string := trimEnd (trimStart s).

Definition isLower (c : ascii) : bool :=
  ((97 <=? N_of_ascii c) && (N_of_ascii c <=? 122))%N.

Definition upper_char (c : ascii) : ascii :=
  if isLower c then ascii_of_N (N_of_ascii c - 32) else c.

Fixpoint toUpperCase (s : string) : string :=
  match s with
  | EmptyString => EmptyString
  | String c s' => String (upper_char c) (toUpperCase s')
  end.

(** Text written in ASCII: every character below 128. On such text the
    two functions above are the built-ins. *)
Definition is_ascii (c : ascii) : bool := (N_of_ascii c <? 128)%N.

Fixpoint ascii_only (s : string) : bool :=
  match s with
  | EmptyString => true
  | String c s' => is_ascii c && ascii_only s'
  end.

(** [(code || '').trim().toUpperCase()]; [None] is a [null] or [undefined]
    argument. *)
Definition normalize (code : option string) : string :=
  toUpperCase (trim (default "" code)).

(** *** The ambient reads of one call

    [_isSuperAdmin()] reads the role of the auth store and [new Date()] /
    [Date.now()] read the clock. *)
Record Env : Type := mkEnv {
  role : option string;
  now : Z;
}.

Definition _isSuperAdmin (e : Env) : bool :=
  bool_decide (role e = Some "superadmin").

(** *** The subscription store *)

Record SubState : Type := mkSub {
  planId : option string;
  accountType : option string;
  status : string;
  trialEndsAt : option Z;
  billingPeriod : string;
  overrides : gmap string value;
  promoCode : option string;
}.

(** The store as created when nothing was persisted. *)
Definition initial : SubState :=
  mkSub (Some "start") (Some "seller") "active" None "monthly" ∅ None.

Definition day_ms : Z := 24 * 60 * 60 * 1000.

(** Zustand's [set(partial)] overwrites the listed fields and keeps the
    others; every transition below writes out the record it leaves. The
    write-through [persistSub(data)] to local storage does not feed back
    into the store and is not modelled. *)

Definition setPlan (planId : option string) (status : string)
    (trialEndsAt : option Z) (s : SubState) : SubState :=
  mkSub planId (accountType s) status trialEndsAt
        (billingPeriod s) (overrides s) (promoCode s).

(** [setPlan(planId)] and [setPlan(planId, status)] with the defaults
    [status = 'active'] and [trialEndsAt = null]. *)
Definition setPlan1 (planId : option string) : SubState → SubState :=
  setPlan planId "active" None.
Definition setPlan2 (planId : option string) (status : string)
    : SubState → SubState :=
  setPlan planId status None.

Definition setAccountType (accountType : option string) (s : SubState)
    : SubState :=
  mkSub (planId s) accountType (status s) (trialEndsAt s)
        (billingPeriod s) (overrides s) (promoCode s).

Definition setBillingPeriod (billingPeriod : string) (s : SubState)
    : SubState :=
  mkSub (planId s) (accountType s) (status s) (trialEndsAt s)
        billingPeriod (overrides s) (promoCode s).

Definition startTrial (e : Env) (s : SubState) : SubState :=
  let trialEndsAt := now e + 14 * day_ms in
  mkSub (Some "enterprise") (accountType s) "trialing" (Some trialEndsAt)
        (billingPeriod s) (overrides s) (promoCode s).

(** [new Date(Date.now() + days * ...).toISOString()] throws when the sum
    leaves the range of [Date]; nothing has been written by then, and the
    store the call leaves is the one it found. *)
Definition startBuyerTrial (e : Env) (days : Z) (s : SubState) : SubState :=
  let trialEndsAt := now e + days * day_ms in
  if valid_time trialEndsAt then
    mkSub (Some "basic") (Some "buyer") "trialing" (Some trialEndsAt)
          (billingPeriod s) (overrides s) (promoCode s)
  else s.

(** [startBuyerTrial()] with the default [days = BUYER_TRIAL_DAYS]. *)
Definition startBuyerTrial0 (e : Env) : SubState → SubState :=
  startBuyerTrial e BUYER_TRIAL_DAYS.

(** As [startBuyerTrial]: outside the range of [Date] the call throws and
    leaves the store as it found it. *)
Definition extendTrial (e : Env) (extraDays : Z) (s : SubState) : SubState :=
  let current := default (now e) (trialEndsAt s) in
  let base := if now e <? current then current else now e in
  let trialEndsAt := base + extraDays * day_ms in
  if valid_time trialEndsAt then
    mkSub (planId s) (accountType s) "trialing" (Some trialEndsAt)
          (billingPeriod s) (overrides s) (promoCode s)
  else s.

(** Returns whether the code was accepted, and the store it leaves. *)
Definition applyPromoCode (e : Env) (code : option string) (s : SubState)
    : bool * SubState :=
  let normalized := normalize code in
  if bool_decide (normalized = "") then (false, s) else
  match getPromoConfig normalized with
  | None => (false, s)
  | Some promo =>
      let trialEndsAt' :=
        if trialDays promo =? 0 then trialEndsAt s
        else Some (now e + trialDays promo * day_ms) in
      let planId' :=
        if bool_decide (promo_planId promo = "") then planId s
        else Some (promo_planId promo) in
      let status' :=
        if trialDays promo =? 0 then status s else "trialing" in
      (true,
       mkSub planId' (accountType s) status' trialEndsAt'
             (billingPeriod s) (overrides s) (Some normalized))
  end.

Definition downgrade (s : SubState) : SubState :=
  let acctType := accountType s in
  let fallbackPlan :=
    if bool_decide (acctType = Some "buyer") then "basic" else "start" in
  mkSub (Some fallbackPlan) acctType
        (if bool_decide (acctType = Some "buyer") then "trial_expired" else "active")
        None "monthly" ∅ None.

Definition setOverrides (overrides : gmap string value) (s : SubState)
    : SubState :=
  mkSub (planId s) (accountType s) (status s) (trialEndsAt s)
        (billingPeriod s) overrides (promoCode s).

(** *** Evaluator queries *)

(** [status === 'trialing' && trialEndsAt && new Date(trialEndsAt) < new Date()] *)
Definition trial_lapsed (e : Env) (s : SubState) : bool :=
  bool_decide (status s = "trialing") &&
  match trialEndsAt s with
  | Some t => t <? now e
  | None => false
  end.

(** [status === 'trial_expired' || status === 'canceled'] *)
Definition read_only (s : SubState) : bool :=
  bool_decide (status s = "trial_expired") || bool_decide (status s = "canceled").

(** The literal [{ basicDashboard: true, companyProfile: true }]. *)
Definition baseline : gmap string value :=
  list_to_map [("basicDashboard", VBool true); ("companyProfile", VBool true)].

(** [o[k] ?? false]: an inherited member is neither [null] nor
    [undefined] and is handed through. *)
Definition get_or_false (o : gmap string value) (k : string) : value :=
  match js_get o k with
  | Own v => v
  | Inherited => VMember
  | Undefined => VBool false
  end.

(** The value returned, and the store the call leaves behind.
    [featureKey in overrides] holds of inherited names as well. *)
Definition hasFeature (e : Env) (featureKey : string) (s : SubState)
    : value * SubState :=
  if _isSuperAdmin e then (VBool true, s) else
  if trial_lapsed e s then (VBool false, downgrade s) else
  if read_only s then (get_or_false baseline featureKey, s) else
  match js_get (overrides s) featureKey with
  | Own v => (v, s)
  | Inherited => (VMember, s)
  | Undefined =>
      let limits := getEffectiveLimits (planId s) (accountType s) in
      (get_or_false limits featureKey, s)
  end.

Definition hasTier (e : Env) (requiredTier : Z) (s : SubState)
    : bool * SubState :=
  if _isSuperAdmin e then (true, s) else
  if trial_lapsed e s then (requiredTier <=? TIERS.START, downgrade s) else
  if read_only s then (requiredTier <=? TIERS.START, s) else
  (requiredTier <=? getTierLevel (planId s), s).

(** [currentCount < max] with a number on the left: a boolean on the right
    is read as 0 or 1, and every number is below [Infinity]; an inherited
    member converts to [NaN], and no number is below [NaN]. *)
Definition js_lt (currentCount : Z) (max : value) : bool :=
  match max with
  | VBool b => currentCount <? (if b then 1 else 0)
  | VNum n => currentCount <? n
  | VInfinity => true
  | VMember => false
  | VNaN => false
  end.

(** [withinLimit] never writes to the store: it returns its answer only.
    An inherited member is neither [undefined] nor [Infinity], so it is
    compared. *)
Definition withinLimit (e : Env) (limitKey : string) (currentCount : Z)
    (s : SubState) : bool :=
  if _isSuperAdmin e then true else
  let limits := getEffectiveLimits (planId s) (accountType s) in
  match js_get limits limitKey with
  | Undefined => true
  | Own VInfinity => true
  | Own max => js_lt currentCount max
  | Inherited => js_lt currentCount VMember
  end.

Definition isTrial (e : Env) (s : SubState) : bool :=
  match trialEndsAt s with
  | Some t => bool_decide (status s = "trialing") && (now e <? t)
  | None => false
  end.

(** [Math.max(0, Math.ceil(ms / (24*60*60*1000)))] *)
Definition trialDaysLeft (e : Env) (s : SubState) : Z :=
  match trialEndsAt s with
  | Some t =>
      if bool_decide (status s = "trialing")
      then Z.max 0 (- ((- (t - now e)) / day_ms))
      else 0
  | None => 0
  end.

(** *** The transitions as one step function

    The nine state-mutating operations of the store, with their arguments,
    and the store each leaves. *)

Inductive Transition : Type :=
  | TSetPlan (planId : option string) (status : string) (trialEndsAt : option Z)
  | TSetAccountType (accountType : option string)
  | TSetBillingPeriod (billingPeriod : string)
  | TStartTrial
  | TStartBuyerTrial (days : Z)
  | TExtendTrial (extraDays : Z)
  | TApplyPromoCode (code : option string)
  | TDowngrade
  | TSetOverrides (overrides : gmap string value).

Definition step (e : Env) (t : Transition) (s : SubState) : SubState :=
  match t with
  | TSetPlan p st tr => setPlan p st tr s
  | TSetAccountType a => setAccountType a s
  | TSetBillingPeriod b => setBillingPeriod b s
  | TStartTrial => startTrial e s
  | TStartBuyerTrial days => startBuyerTrial e days s
  | TExtendTrial d => extendTrial e d s
  | TApplyPromoCode code => snd (applyPromoCode e code s)
  | TDowngrade => downgrade s
  | TSetOverrides o => setOverrides o s
  end.

(** [status == trialing] implies [trialEndsAt != null], as a boolean. *)
Definition trial_has_end (s : SubState) : bool :=
  negb (bool_decide (status s = "trialing")) || bool_decide (is_Some (trialEndsAt s)).

(** The calls of [setPlan] that name the status [trialing] without an end
    date; every other transition is unrestricted. *)
Definition dateless_trial (t : Transition) : bool :=
  match t with
  | TSetPlan _ st None => bool_decide (st = "trialing")
  | _ => false
  end.

(** *** The [useLimit] hook

    [useLimit(limitKey, currentCount)] reads the role of the auth store and
    the plan id and account type of the subscription store; it returns
    [{ allowed, limit, remaining }]. *)

Record LimitInfo : Type := mkLimitInfo {
  allowed : bool;
  limit : value;
  remaining : value;
}.

(** The finite number a limit stands for in [max - currentCount]; an
    inherited member and [NaN] stand for none. *)
Definition to_number (v : value) : option Z :=
  match v with
  | VBool b => Some (if b then 1 else 0)
  | VNum n => Some n
  | VInfinity => None
  | VMember => None
  | VNaN => None
  end.

Definition useLimit (e : Env) (limitKey : string) (currentCount : Z)
    (s : SubState) : LimitInfo :=
  let isSA := bool_decide (role e = Some "superadmin") in
  let limits := getEffectiveLimits (planId s) (accountType s) in
  if isSA then mkLimitInfo true VInfinity VInfinity else
  let max := match js_get limits limitKey with
             | Own v => v
             | Inherited => VMember
             | Undefined => VInfinity
             end in
  mkLimitInfo
    (js_lt currentCount max)
    max
    (if bool_decide (max = VInfinity) then VInfinity
     else match to_number max with
          | Some m => VNum (Z.max 0 (m - currentCount))
          | None => VNaN
          end).

(** *** What each transition hands to [persistSub]

    The object literal [data] written to local storage by a transition. Its
    [promoCode] property is left out by the four plain setters, hence the
    nested option; a rejected promo code writes nothing at all, and neither
    does a call that throws before it reaches [persistSub]. *)

Record Snapshot : Type := mkSnapshot {
  data_planId : option string;
  data_status : string;
  data_trialEndsAt : option Z;
  data_accountType : option string;
  data_billingPeriod : string;
  data_overrides : gmap string value;
  data_promoCode : option (option string);
}.

Definition persisted (e : Env) (t : Transition) (s : SubState)
    : option Snapshot :=
  match t with
  | TSetPlan p st tr =>
      Some (mkSnapshot p st tr (accountType s) (billingPeriod s) (overrides s) None)
  | TSetAccountType a =>
      Some (mkSnapshot (planId s) (status s) (trialEndsAt s) a (billingPeriod s)
              (overrides s) None)
  | TSetBillingPeriod b =>
      Some (mkSnapshot (planId s) (status s) (trialEndsAt s) (accountType s) b
              (overrides s) None)
  | TStartTrial =>
      Some (mkSnapshot (Some "enterprise") "trialing" (Some (now e + 14 * day_ms))
              (accountType s) (billingPeriod s) (overrides s) (Some (promoCode s)))
  | TStartBuyerTrial days =>
      if valid_time (now e + days * day_ms) then
        Some (mkSnapshot (Some "basic") "trialing" (Some (now e + days * day_ms))
                (Some "buyer") "monthly" (overrides s) (Some (promoCode s)))
      else None
  | TExtendTrial d =>
      let current := default (now e) (trialEndsAt s) in
      let base := if now e <? current then current else now e in
      if valid_time (base + d * day_ms) then
        Some (mkSnapshot (planId s) "trialing" (Some (base + d * day_ms))
                (accountType s) (billingPeriod s) (overrides s)
                (Some (promoCode s)))
      else None
  | TApplyPromoCode code =>
      let normalized := normalize code in
      if bool_decide (normalized = "") then None else
      match getPromoConfig normalized with
      | None => None
      | Some promo =>
          let trialEndsAt' :=
            if trialDays promo =? 0 then trialEndsAt s
            else Some (now e + trialDays promo * day_ms) in
          let planId' :=
            if bool_decide (promo_planId promo = "") then planId s
            else Some (promo_planId promo) in
          let status' :=
            if trialDays promo =? 0 then status s else "trialing" in
          Some (mkSnapshot planId' status' trialEndsAt' (accountType s)
                  (billingPeriod s) (overrides s) (Some (Some normalized)))
      end
  | TDowngrade =>
      let acctType := accountType s in
      let fallbackPlan :=
        if bool_decide (acctType = Some "buyer") then "basic" else "start" in
      Some (mkSnapshot (Some fallbackPlan)
              (if bool_decide (acctType = Some "buyer") then "trial_expired"
               else "active")
              None acctType "monthly" ∅ (Some None))
  | TSetOverrides o =>
      Some (mkSnapshot (planId s) (status s) (trialEndsAt s) (accountType s)
              (billingPeriod s) o None)
  end.

(** ** Account type labels (stripeService.js) *)

Record AccountType : Type := mkAccountType {
  at_id : string;
  label : string;
  shortLabel : string;
}.

Definition ACCOUNT_TYPES : list AccountType :=
  [ mkAccountType "seller" "Seller" "S";
    mkAccountType "buyer" "Buyer" "B";
    mkAccountType "service_provider" "Service Provider" "SP" ].

(** [found ? found.label : accountType]; the result is the argument itself
    when no entry matches, [None] included. *)
Definition getAccountTypeLabel (accountType : option string) : option string :=
  match List.find (fun t => bool_decide (Some (at_id t) = accountType)) ACCOUNT_TYPES with
  | Some found => Some (label found)
  | None => accountType
  end.

(** [accountType.charAt(0)] *)
Definition charAt0 (s : string) : string :=
  match s with
  | EmptyString => EmptyString
  | String c _ => String c EmptyString
  end.

(** [found ? found.shortLabel : accountType?.charAt(0)?.toUpperCase() || '?'];
    here [None] is [null] or [undefined]. The first character is put in
    upper case by the ASCII rule of [toUpperCase]; what the code returns
    for a string that starts outside ASCII is not described. *)
Definition getAccountTypeShortLabel (accountType : option string) : string :=
  match List.find (fun t => bool_decide (Some (at_id t) = accountType)) ACCOUNT_TYPES with
  | Some found => shortLabel found
  | None =>
      match accountType with
      | None => "?"
      | Some a =>
          let c := toUpperCase (charAt0 a) in
          if bool_decide (c = "") then "?" else c
      end
  end.

(** ** String.prototype.toLowerCase, on ASCII as [toUpperCase] *)




(** ** subscriptionService.js and IndustryGuard.jsx

    The per-industry subscriptions: tier names, the rows cached by
    [useIndustrySubscriptionStore], and the route guard that reads them. *)

Module IndustrySubscriptions.

Definition TIER_LEVELS : gmap string Z :=
  list_to_map [("free", 0); ("basic", 1); ("standard", 2); ("premium", 3);
               ("enterprise", 4)].

(** [TIER_LEVELS[userTier] ?? -1] against [TIER_LEVELS[requiredTier] ?? 999].
    A tier argument is an [option string], [None] standing for [null] or
    [undefined]; where a parameter has the default ['free'], as in
    [hasIndustryAccess] and [IndustryGuard], the argument is the value
    after the default has been filled in.

    A name inherited from [Object.prototype] reads as that member, which
    is neither missing nor a number. Compared with a number it gives
    [false], the answer the defaults give here as well. Only when both
    arguments are such names does the code compare the two members as
    strings; that case is outside this definition, and the statements
    about such names exclude it. *)
Definition hasMinimumTier (userTier requiredTier : option string) : bool :=
  let userLevel := default (-1) (userTier ≫= (TIER_LEVELS !!.)) in
  let requiredLevel := default 999 (requiredTier ≫= (TIER_LEVELS !!.)) in
  requiredLevel <=? userLevel.

(** A row of the [subscriptions] table, as far as the store reads it. *)
Record Subscription : Type := mkSubscription {
  industry : option string;
  tier : option string;
  status : string;
}.

(** [s.industry === industry && s.status === 'active'], for a string
    [industry]. *)
Definition is_active_for (i : string) (s : Subscription) : bool :=
  bool_decide (industry s = Some i) && bool_decide (status s = "active").

(** [setSubscriptions(subscriptions)]: [subscriptions || []]. *)
Definition setSubscriptions (subscriptions : option (list Subscription))
    : list Subscription :=
  default [] subscriptions.

(** [found?.tier || null] *)
Definition getTierForIndustry (i : string) (subscriptions : list Subscription)
    : option string :=
  match List.find (is_active_for i) subscriptions with
  | Some found =>
      match tier found with
      | Some t => if bool_decide (t = "") then None else Some t
      | None => None
      end
  | None => None
  end.

Definition hasIndustryAccess (i : string) (requiredTier : option string)
    (subscriptions : list Subscription) : bool :=
  match List.find (is_active_for i) subscriptions with
  | None => false
  | Some found => hasMinimumTier (tier found) requiredTier
  end.

(** *** IndustryGuard *)





End IndustrySubscriptions.

(** ** superadminAuth.js and [capRole] of authService.js

    The configured address [import.meta.env.VITE_SA_EMAIL] is an argument;
    [None] is an unset variable. *)

Module SuperadminAuth.



Definition canAssignSuperadmin (currentRole : option string) : bool :=
  bool_decide (currentRole = Some "superadmin").


End SuperadminAuth.

(** ** industryStore.js

    The industries and equipment categories a user has picked. The writes
    to local storage and the best-effort syncs to the registry and to the
    database do not come back into the store and are not modelled. A
    maximum count is a finite number. *)

Module IndustryStore.

Record State : Type := mkState {
  selectedIndustries : list string;
  selectedCategories : gmap string (list string);
}.

(** [array.includes(x)] *)
Definition includes (x : string) (l : list string) : bool :=
  bool_decide (x ∈ l).

(** [array.filter((id) => id !== x)] *)
Definition without (x : string) (l : list string) : list string :=
  List.filter (fun y => negb (bool_decide (y = x))) l.

Definition selectIndustry (industryId : string) (maxCount : Z) (s : State)
    : bool * State :=
  let current := selectedIndustries s in
  if includes industryId current then (true, s) else
  if maxCount <=? Z.of_nat (List.length current) then (false, s) else
  let next := (current ++ [industryId])%list in
  (true, mkState next (selectedCategories s)).

Definition deselectIndustry (industryId : string) (s : State) : State :=
  let next := without industryId (selectedIndustries s) in
  let cats := delete industryId (selectedCategories s) in
  mkState next cats.

Definition setIndustries (ids : list string) (s : State) : State :=
  mkState ids (selectedCategories s).

Definition isSelected (industryId : string) (s : State) : bool :=
  includes industryId (selectedIndustries s).

Definition clearIndustries (s : State) : State := mkState [] ∅.

(** [cats[industryId] || []] where an array is expected: the array under
    an own key (an array is truthy, also when empty), the empty array under
    a key the object does not have, and [None] where the key is a name
    inherited from [Object.prototype]: the value read is then that member,
    which is not an array and has neither [includes] nor [filter]. *)
Definition categories_at (cats : gmap string (list string)) (industryId : string)
    : option (list string) :=
  match js_get cats industryId with
  | Own l => Some l
  | Inherited => None
  | Undefined => Some []
  end.

(** [get().selectedCategories[industryId] || []]; [None] is the inherited
    member, handed back as it is. *)
Definition getCategoriesForIndustry (industryId : string) (s : State)
    : option (list string) :=
  categories_at (selectedCategories s) industryId.

(** [None] is the [TypeError] of [current.includes] on a value that is not
    an array; it is raised before any [set], the store stays as it is. *)
Definition selectCategory (industryId categoryId : string) (maxCount : Z)
    (s : State) : option (bool * State) :=
  let cats := selectedCategories s in
  match categories_at cats industryId with
  | None => None
  | Some current =>
      Some (if includes categoryId current then (true, s) else
            if maxCount <=? Z.of_nat (List.length current) then (false, s) else
            (true, mkState (selectedIndustries s)
                           (<[industryId := (current ++ [categoryId])%list]> cats)))
  end.

(** [None] is the [TypeError] of [.filter] on a value that is not an array,
    raised before any [set]. *)
Definition deselectCategory (industryId categoryId : string) (s : State)
    : option State :=
  let cats := selectedCategories s in
  match categories_at cats industryId with
  | None => None
  | Some current =>
      let rest := without categoryId current in
      Some (mkState (selectedIndustries s)
              (if bool_decide (List.length rest = 0%nat) then delete industryId cats
               else <[industryId := rest]> cats))
  end.

(** [None] is the [TypeError] of [.includes] on a value that is not an
    array. *)
Definition isCategorySelected (industryId categoryId : string) (s : State)
    : option bool :=
  match categories_at (selectedCategories s) industryId with
  | None => None
  | Some current => Some (includes categoryId current)
  end.

End IndustryStore.

(** ** Register.jsx: the plan a new account starts on

    [handleAccountTypeChange] preselects it and [handleGoogleSignup] writes
    it to the subscription store:
    [setStoreAccountType(accountType); setPlan(accountType === 'buyer' ? 'basic' : 'start')]. *)

Module Register.

Definition starting_plan (accountType : option string) : string :=
  if bool_decide (accountType = Some "buyer") then "basic" else "start".

Definition signup_store (accountType : option string) (s : SubState) : SubState :=
  setPlan1 (Some (starting_plan accountType)) (setAccountType accountType s).

End Register.

(** * Properties *)

(** ** Plan catalog *)

Lemma elem_of_PLANS (p : Plan) :
  p ∈ PLANS →
  p = plan_start ∨ p = plan_basic ∨ p = plan_standard ∨ p = plan_premium
  ∨ p = plan_enterprise.
Proof.
  unfold PLANS. intros H.
  repeat (apply elem_of_cons in H as [H | H]; [tauto |]).
  by apply elem_of_nil in H.
Qed.

Lemma find_all_false {A} (f : A → bool) (l : list A) :
  (∀ x, x ∈ l → f x = false) → List.find f l = None.
Proof.
  induction l as [| a l IH]; intros H; [done |].
  simpl. rewrite (H a) by apply list_elem_of_here.
  apply IH. intros x Hx. apply H. by apply list_elem_of_further.
Qed.

Lemma getPlanById_unknown (planId : option string) :
  (∀ p, p ∈ PLANS → Some (id p) ≠ planId) → getPlanById planId = plan_start.
Proof.
  intros H. unfold getPlanById. rewrite find_all_false; [done |].
  intros p Hp. unfold id_is. apply bool_decide_eq_false. by apply H.
Qed.

Lemma getPlanById_in_PLANS (planId : option string) :
  getPlanById planId ∈ PLANS.
Proof.
  unfold getPlanById.
  destruct (List.find (id_is planId) PLANS) as [p |] eqn:E; simpl.
  - apply find_some in E as [E _]. by apply list_elem_of_In.
  - apply list_elem_of_here.
Qed.

(** C9. [getPlanById] is a total function whose result is always a plan of
    the catalog: an id that is the id of a catalog plan yields that plan,
    and an id that no catalog plan carries (a string outside the catalog,
    [null], [undefined]) yields the start plan, so that its tier level is 0. *)
Theorem getPlanById_total (planId : option string) :
  getPlanById planId ∈ PLANS
  ∧ (∀ p, p ∈ PLANS → Some (id p) = planId → getPlanById planId = p)
  ∧ ((∀ p, p ∈ PLANS → Some (id p) ≠ planId) →
       getPlanById planId = plan_start
       ∧ id (getPlanById planId) = "start"
       ∧ getTierLevel planId = 0).
Proof.
  split; [apply getPlanById_in_PLANS |]. split.
  - intros p Hp <-.
    apply elem_of_PLANS in Hp as [-> | [-> | [-> | [-> | ->]]]]; reflexivity.
  - intros H. unfold getTierLevel.
    rewrite (getPlanById_unknown planId H). by repeat split.
Qed.

Lemma not_in_catalog_None : ∀ p, p ∈ PLANS → Some (id p) ≠ None.
Proof. done. Qed.

Lemma not_in_catalog_gold : ∀ p, p ∈ PLANS → Some (id p) ≠ Some "gold".
Proof.
  intros p Hp.
  apply elem_of_PLANS in Hp as [-> | [-> | [-> | [-> | ->]]]]; discriminate.
Qed.

Lemma getPlanById_total_witness :
  getPlanById (Some "premium") = plan_premium
  ∧ (getPlanById None = plan_start ∧ getTierLevel None = 0)
  ∧ (getPlanById (Some "gold") = plan_start ∧ getTierLevel (Some "gold") = 0).
Proof.
  split; [| split].
  - apply (getPlanById_total (Some "premium")); [| reflexivity].
    unfold PLANS. do 3 apply list_elem_of_further. apply list_elem_of_here.
  - destruct (getPlanById_total None) as (_ & _ & H).
    destruct (H not_in_catalog_None) as (H1 & _ & H2). by split.
  - destruct (getPlanById_total (Some "gold")) as (_ & _ & H).
    destruct (H not_in_catalog_gold) as (H1 & _ & H2). by split.
Defined.

(** ** Account-type overrides *)

(** C4. For every plan id, of the catalog or not, the effective limits of a
    seller and of a service provider map [executiveSummary] to [false]. *)
Theorem executiveSummary_seller_service_provider (planId : option string) :
  getEffectiveLimits planId (Some "seller") !! "executiveSummary"
    = Some (VBool false)
  ∧ getEffectiveLimits planId (Some "service_provider") !! "executiveSummary"
    = Some (VBool false).
Proof.
  unfold getEffectiveLimits.
  split; repeat case_bool_decide; try discriminate; apply lookup_insert_eq.
Qed.

(** The plans whose own table grants [executiveSummary] lose it all the same. *)
Example executiveSummary_enterprise_plan :
  limits (getPlanById (Some "enterprise")) !! "executiveSummary" = Some (VBool true)
  ∧ getEffectiveLimits (Some "enterprise") (Some "seller") !! "executiveSummary"
    = Some (VBool false)
  ∧ getEffectiveLimits (Some "enterprise") (Some "buyer") !! "executiveSummary"
    = Some (VBool true).
Proof. repeat split; reflexivity. Qed.

(** C10. An account type that is neither ['buyer'] nor ['service_provider']
    (an unknown string, [null], [undefined]) gets what a seller gets: the
    limits of the base plan, no override patch, [executiveSummary] set to
    [false]. *)
Theorem getEffectiveLimits_other_accountType (planId accountType : option string) :
  accountType ≠ Some "buyer" →
  accountType ≠ Some "service_provider" →
  getEffectiveLimits planId accountType
    = <["executiveSummary" := VBool false]> (limits (getPlanById planId))
  ∧ getEffectiveLimits planId accountType
    = getEffectiveLimits planId (Some "seller").
Proof.
  intros Hb Hsp. unfold getEffectiveLimits.
  rewrite !bool_decide_eq_false_2 by (done || discriminate). done.
Qed.

Lemma getEffectiveLimits_other_accountType_witness :
  getEffectiveLimits (Some "standard") None
    = <["executiveSummary" := VBool false]> standard_limits
  ∧ getEffectiveLimits (Some "standard") (Some "reseller")
    = getEffectiveLimits (Some "standard") (Some "seller").
Proof.
  split.
  - apply (getEffectiveLimits_other_accountType (Some "standard") None); discriminate.
  - apply (getEffectiveLimits_other_accountType (Some "standard") (Some "reseller"));
      discriminate.
Defined.

(** ** Numeric limits *)

Lemma start_maxProjects (accountType : option string) :
  getEffectiveLimits (Some "start") accountType !! "maxProjects" = Some (VNum 3).
Proof. unfold getEffectiveLimits. repeat case_bool_decide; reflexivity. Qed.

Lemma js_get_own {A} (o : gmap string A) (k : string) (a : A) :
  o !! k = Some a → js_get o k = Own a.
Proof. unfold js_get. by intros ->. Qed.

Lemma js_get_undefined {A} (o : gmap string A) (k : string) :
  o !! k = None → k ∉ Object_prototype_names → js_get o k = Undefined.
Proof. unfold js_get. intros -> H. by rewrite bool_decide_eq_false_2. Qed.

Lemma js_get_inherited {A} (o : gmap string A) (k : string) :
  o !! k = None → k ∈ Object_prototype_names → js_get o k = Inherited.
Proof. unfold js_get. intros -> H. by rewrite bool_decide_eq_true_2. Qed.

(** C8, as the code has it. A superadmin is always within limits. For
    everybody else [withinLimit] answers [true] when [limits[limitKey]] is
    [undefined], the key being neither a key of the effective limits nor a
    name inherited from [Object.prototype], or when the entry is
    [Infinity]; for a finite entry it answers [true] exactly when the count
    is strictly below it (a boolean entry counting as 0 or 1, as JS
    compares it); for an inherited name that is no key of the limits it
    answers [false]. On the start plan, whose [maxProjects] is 3, a count of
    3 is refused and a count of 2 accepted. *)
Theorem withinLimit_spec (e : Env) (limitKey : string) (currentCount : Z)
    (s : SubState) :
  let limit := getEffectiveLimits (planId s) (accountType s) !! limitKey in
  (_isSuperAdmin e = true → withinLimit e limitKey currentCount s = true)
  ∧ (_isSuperAdmin e = false →
       (limit = None ∧ limitKey ∉ Object_prototype_names
        ∨ limit = Some VInfinity →
          withinLimit e limitKey currentCount s = true)
       ∧ (∀ n, limit = Some (VNum n) →
            (withinLimit e limitKey currentCount s = true ↔ currentCount < n))
       ∧ (∀ b, limit = Some (VBool b) →
            (withinLimit e limitKey currentCount s = true
             ↔ currentCount < (if b then 1 else 0)))
       ∧ (limit = None → limitKey ∈ Object_prototype_names →
            withinLimit e limitKey currentCount s = false)
       ∧ (planId s = Some "start" →
            withinLimit e "maxProjects" 3 s = false
            ∧ withinLimit e "maxProjects" 2 s = true)).
Proof.
  intros limit. unfold withinLimit. split; intros Hsa; rewrite Hsa; [done |].
  split; [| split; [| split; [| split]]].
  - intros [[Hnone Hplain] | Hinf].
    + by rewrite (js_get_undefined _ _ Hnone Hplain).
    + by rewrite (js_get_own _ _ _ Hinf).
  - intros n Hn. rewrite (js_get_own _ _ _ Hn). simpl. apply Z.ltb_lt.
  - intros b Hb. rewrite (js_get_own _ _ _ Hb). simpl. apply Z.ltb_lt.
  - intros Hnone Hin. by rewrite (js_get_inherited _ _ Hnone Hin).
  - intros Hstart. rewrite Hstart.
    rewrite (js_get_own _ _ _ (start_maxProjects (accountType s))). by split.
Qed.

Definition visitor : Env := mkEnv (Some "user") 1700000000000.
Definition root_session : Env := mkEnv (Some "superadmin") 1700000000000.

Lemma noSuchLimit_plain : "noSuchLimit" ∉ Object_prototype_names.
Proof.
  intros Hin. unfold Object_prototype_names in Hin.
  repeat (apply elem_of_cons in Hin as [Hin | Hin]; [discriminate Hin |]).
  by apply elem_of_nil in Hin.
Qed.

Lemma toString_inherited : "toString" ∈ Object_prototype_names.
Proof. unfold Object_prototype_names. repeat constructor. Qed.

Lemma withinLimit_spec_witness :
  withinLimit root_session "maxProjects" 1000 initial = true
  ∧ withinLimit visitor "noSuchLimit" 1000 initial = true
  ∧ (withinLimit visitor "maxAssets" 9 initial = true ↔ 9 < 10)
  ∧ withinLimit visitor "toString" 0 initial = false
  ∧ (withinLimit visitor "maxProjects" 3 initial = false
     ∧ withinLimit visitor "maxProjects" 2 initial = true).
Proof.
  split; [| split; [| split; [| split]]].
  - destruct (withinLimit_spec root_session "maxProjects" 1000 initial) as [Hsa _].
    apply Hsa. reflexivity.
  - destruct (withinLimit_spec visitor "noSuchLimit" 1000 initial) as [_ Hu].
    destruct (Hu eq_refl) as [Habsent _]. apply Habsent. left.
    split; [reflexivity | apply noSuchLimit_plain].
  - destruct (withinLimit_spec visitor "maxAssets" 9 initial) as [_ Hu].
    destruct (Hu eq_refl) as (_ & Hnum & _). apply Hnum. reflexivity.
  - destruct (withinLimit_spec visitor "toString" 0 initial) as [_ Hu].
    destruct (Hu eq_refl) as (_ & _ & _ & Hinh & _).
    apply Hinh; [reflexivity | apply toString_inherited].
  - destruct (withinLimit_spec visitor "maxProjects" 3 initial) as [_ Hu].
    destruct (Hu eq_refl) as (_ & _ & _ & _ & Hstart). apply Hstart. reflexivity.
Defined.

(** C8, as stated, fails: the effective limits of the initial store have no
    entry under [constructor], the session is no superadmin, and yet
    [withinLimit('constructor', 0)] answers [false]: the read finds the
    constructor every object inherits, and 0 is not below it. *)
Lemma withinLimit_absent_limit_refused :
  _isSuperAdmin visitor = false
  ∧ getEffectiveLimits (planId initial) (accountType initial) !! "constructor"
    = None
  ∧ withinLimit visitor "constructor" 0 initial = false.
Proof. repeat split. Qed.

(** ** Transitions *)

(** C5. [downgrade] sends a buyer to plan [basic] with status
    [trial_expired] and everybody else to plan [start] with status [active];
    in both cases it clears [trialEndsAt], [overrides] and [promoCode], sets
    [billingPeriod] to [monthly] and keeps [accountType]. *)
Theorem downgrade_spec (s : SubState) :
  (accountType s = Some "buyer" →
     planId (downgrade s) = Some "basic" ∧ status (downgrade s) = "trial_expired")
  ∧ (accountType s ≠ Some "buyer" →
     planId (downgrade s) = Some "start" ∧ status (downgrade s) = "active")
  ∧ trialEndsAt (downgrade s) = None
  ∧ overrides (downgrade s) = ∅
  ∧ promoCode (downgrade s) = None
  ∧ billingPeriod (downgrade s) = "monthly"
  ∧ accountType (downgrade s) = accountType s.
Proof.
  unfold downgrade. simpl. repeat split; case_bool_decide; done.
Qed.

Definition buyer_on_premium : SubState :=
  mkSub (Some "premium") (Some "buyer") "active" (Some 5) "annual"
        {["auditLogs" := VBool true]} (Some "STREFEXVIP").

Definition provider_on_premium : SubState :=
  mkSub (Some "premium") (Some "service_provider") "past_due" (Some 5) "triennial"
        {["auditLogs" := VBool true]} (Some "STREFEXVIP").

Lemma downgrade_spec_witness :
  (planId (downgrade buyer_on_premium) = Some "basic"
   ∧ status (downgrade buyer_on_premium) = "trial_expired")
  ∧ (planId (downgrade provider_on_premium) = Some "start"
     ∧ status (downgrade provider_on_premium) = "active")
  ∧ overrides (downgrade buyer_on_premium) = ∅.
Proof.
  repeat apply conj.
  - apply (downgrade_spec buyer_on_premium). reflexivity.
  - apply (downgrade_spec buyer_on_premium). reflexivity.
  - apply (downgrade_spec provider_on_premium). discriminate.
  - apply (downgrade_spec provider_on_premium). discriminate.
  - apply (downgrade_spec buyer_on_premium).
Defined.

(** ** Promo codes *)

(** *** Normalisation *)















(** Each name inherited from [Object.prototype] holds a lower-case letter
    and a normalised code holds none, so the read [PROMO_CODES[normalized]]
    never lands on an inherited member and the table lookup is all there
    is to it. *)




(** *** applyPromoCode *)


(** A code of the table is accepted. *)
Lemma applyPromoCode_accepts (e : Env) (code : option string) (s : SubState)
    (promo : Promo) :
  PROMO_CODES !! normalize code = Some promo →
  fst (applyPromoCode e code s) = true
  ∧ promoCode (snd (applyPromoCode e code s)) = Some (normalize code).
Proof.
  intros H. unfold applyPromoCode, getPromoConfig. rewrite H.
  case_bool_decide as E; [| done].
  rewrite E in H. discriminate H.
Qed.

(** C6. Whatever the state before, [applyPromoCode('STREFEX30')] is accepted
    and leaves plan [basic], status [trialing], a trial ending 30 days from
    now and the promo code [STREFEX30]; account type, billing period and
    overrides are those of the state before. *)
Theorem applyPromoCode_STREFEX30 (e : Env) (s : SubState) :
  let r := applyPromoCode e (Some "STREFEX30") s in
  fst r = true
  ∧ planId (snd r) = Some "basic"
  ∧ status (snd r) = "trialing"
  ∧ trialEndsAt (snd r) = Some (now e + 30 * day_ms)
  ∧ promoCode (snd r) = Some "STREFEX30"
  ∧ accountType (snd r) = accountType s
  ∧ billingPeriod (snd r) = billingPeriod s
  ∧ overrides (snd r) = overrides s.
Proof. repeat split. Qed.

(** *** What normalising means

    Stated apart from [trim] and [toUpperCase]: the text between the
    leading and the trailing white space, with [a]..[z] replaced by
    [A]..[Z]. *)














(** Lower case and surrounding blanks do not matter. *)
Example applyPromoCode_strefex30_padded :
  applyPromoCode visitor (Some "  strefex30 ") initial
  = applyPromoCode visitor (Some "STREFEX30") initial
  ∧ fst (applyPromoCode visitor (Some "  strefex30 ") initial) = true.
Proof. split; reflexivity. Qed.

(** ** The trial invariant *)

(** [status == trialing ⇒ trialEndsAt != null] *)
Definition trial_invariant (s : SubState) : Prop :=
  status s = "trialing" → is_Some (trialEndsAt s).

Lemma trial_has_end_true (s : SubState) :
  trial_has_end s = true ↔ trial_invariant s.
Proof.
  unfold trial_has_end, trial_invariant.
  rewrite orb_true_iff, negb_true_iff, bool_decide_eq_false, bool_decide_eq_true.
  destruct (decide (status s = "trialing")); tauto.
Qed.

Lemma applyPromoCode_trial_invariant (e : Env) (code : option string)
    (s : SubState) :
  trial_invariant s → trial_invariant (snd (applyPromoCode e code s)).
Proof.
  intros Hs. unfold applyPromoCode.
  case_bool_decide; [done |].
  destruct (getPromoConfig (normalize code)) as [promo |]; [| done].
  unfold trial_invariant. simpl.
  destruct (trialDays promo =? 0); [apply Hs | by eexists].
Qed.

(** C3, as the code has it. Starting from a state that satisfies the
    invariant, the state left by a transition satisfies it again, with one
    exception: [setPlan] called with the status [trialing] and no end date
    (the default [null] included), which leaves a trialing state without an
    end date whatever the state before. *)
Theorem trial_invariant_step (e : Env) (t : Transition) (s : SubState) :
  trial_invariant s →
  (trial_invariant (step e t s) ↔ dateless_trial t = false).
Proof.
  intros Hs.
  destruct t as [p st tr | a | b | | days | d | code | | o]; simpl;
    try (split; [done | intros _]);
    try exact Hs; try (intros _; by eexists).
  - unfold trial_invariant; simpl. destruct tr as [t |].
    + split; [done | intros _ _; by eexists].
    + rewrite bool_decide_eq_false. split.
      * intros H Hst. by destruct (H Hst).
      * intros Hne Hst. by destruct Hne.
  - unfold startBuyerTrial.
    destruct (valid_time (now e + days * day_ms)); [| exact Hs].
    intros _. by eexists.
  - unfold extendTrial. simpl.
    match goal with |- context [valid_time ?x] => destruct (valid_time x) end;
      [| exact Hs].
    intros _. by eexists.
  - by apply applyPromoCode_trial_invariant.
  - unfold trial_invariant; simpl. by case_bool_decide.
Qed.

Lemma trial_invariant_initial : trial_invariant initial.
Proof. intros H. discriminate H. Qed.

Lemma trial_invariant_step_witness :
  trial_invariant (step visitor (TApplyPromoCode (Some "STREFEXVIP")) initial)
  ∧ trial_invariant (step visitor (TExtendTrial 7) initial)
  ∧ trial_invariant (step visitor (TSetPlan (Some "premium") "active" None) initial)
  ∧ ¬ trial_invariant (step visitor (TSetPlan (Some "basic") "trialing" None) initial).
Proof.
  split; [| split; [| split]].
  - apply (trial_invariant_step visitor (TApplyPromoCode (Some "STREFEXVIP")) initial
             trial_invariant_initial). reflexivity.
  - apply (trial_invariant_step visitor (TExtendTrial 7) initial
             trial_invariant_initial). reflexivity.
  - apply (trial_invariant_step visitor (TSetPlan (Some "premium") "active" None)
             initial trial_invariant_initial). reflexivity.
  - intros H.
    apply (trial_invariant_step visitor (TSetPlan (Some "basic") "trialing" None)
             initial trial_invariant_initial) in H.
    discriminate H.
Defined.

(** C3, as stated, fails: the initial store satisfies the invariant, and
    [setPlan('basic', 'trialing')] leaves a store that does not. *)
Lemma setPlan_trialing_breaks_invariant :
  trial_invariant initial
  ∧ step visitor (TSetPlan (Some "basic") "trialing" None) initial
    = setPlan2 (Some "basic") "trialing" initial
  ∧ status (setPlan2 (Some "basic") "trialing" initial) = "trialing"
  ∧ trialEndsAt (setPlan2 (Some "basic") "trialing" initial) = None
  ∧ ¬ trial_invariant (setPlan2 (Some "basic") "trialing" initial).
Proof.
  split; [intros H; discriminate H |]. repeat split.
  intros H. destruct (H eq_refl) as [t Ht]. discriminate Ht.
Qed.

(** ** Lapsed trials *)

(** What [hasFeature] and [hasTier] do on a lapsed trial: the store is
    downgraded; [hasFeature] answers [false], [hasTier] answers for tier 0. *)
Lemma hasFeature_lapsed (e : Env) (featureKey : string) (s : SubState) :
  _isSuperAdmin e = false → trial_lapsed e s = true →
  hasFeature e featureKey s = (VBool false, downgrade s).
Proof. intros Hsa Hl. unfold hasFeature. by rewrite Hsa, Hl. Qed.

Lemma hasTier_lapsed (e : Env) (requiredTier : Z) (s : SubState) :
  _isSuperAdmin e = false → trial_lapsed e s = true →
  hasTier e requiredTier s = (requiredTier <=? 0, downgrade s).
Proof. intros Hsa Hl. unfold hasTier. by rewrite Hsa, Hl. Qed.

(** A downgraded store is never a lapsed trial. *)
Lemma downgrade_not_lapsed (e : Env) (s : SubState) :
  trial_lapsed e (downgrade s) = false.
Proof. unfold trial_lapsed, downgrade. simpl. by rewrite andb_false_r. Qed.

(** On a lapsed trial [hasTier] gives the answer the downgraded store gives. *)
Lemma hasTier_lapsed_post_downgrade (e : Env) (requiredTier : Z) (s : SubState) :
  _isSuperAdmin e = false → trial_lapsed e s = true →
  fst (hasTier e requiredTier s) = fst (hasTier e requiredTier (downgrade s)).
Proof.
  intros Hsa Hl. rewrite hasTier_lapsed by done.
  unfold hasTier. rewrite Hsa, downgrade_not_lapsed.
  unfold read_only, downgrade. simpl. by repeat case_bool_decide.
Qed.

(** [withinLimit] reads the plan id and the account type of the store and
    nothing else. *)
Lemma withinLimit_reads_plan_only (e : Env) (limitKey : string) (n : Z)
    (s s' : SubState) :
  planId s = planId s' → accountType s = accountType s' →
  withinLimit e limitKey n s = withinLimit e limitKey n s'.
Proof. unfold withinLimit. by intros -> ->. Qed.

(** A buyer whose Basic trial ended a day ago, and a seller whose
    Enterprise trial ended a day ago. *)
Definition lapsed_buyer : SubState :=
  mkSub (Some "basic") (Some "buyer") "trialing" (Some (now visitor - day_ms))
        "monthly" ∅ None.

Definition lapsed_seller : SubState :=
  mkSub (Some "enterprise") (Some "seller") "trialing" (Some (now visitor - day_ms))
        "monthly" ∅ None.

(** C1, evaluated. On the lapsed buyer trial [hasFeature('basicDashboard')]
    downgrades the store and returns [false], where the downgraded store
    itself answers [true]; likewise [hasFeature('companyProfile')] on the
    lapsed seller trial. For [multipleIndustries] the two agree. *)
Theorem hasFeature_lapsed_returns_false :
  trial_lapsed visitor lapsed_buyer = true
  ∧ hasFeature visitor "basicDashboard" lapsed_buyer
    = (VBool false, downgrade lapsed_buyer)
  ∧ hasFeature visitor "basicDashboard" (downgrade lapsed_buyer)
    = (VBool true, downgrade lapsed_buyer)
  ∧ hasFeature visitor "multipleIndustries" lapsed_buyer
    = (VBool false, downgrade lapsed_buyer)
  ∧ hasFeature visitor "multipleIndustries" (downgrade lapsed_buyer)
    = (VBool false, downgrade lapsed_buyer)
  ∧ trial_lapsed visitor lapsed_seller = true
  ∧ hasFeature visitor "companyProfile" lapsed_seller
    = (VBool false, downgrade lapsed_seller)
  ∧ hasFeature visitor "companyProfile" (downgrade lapsed_seller)
    = (VBool true, downgrade lapsed_seller).
Proof. repeat split. Qed.

(** C2, evaluated. On the lapsed Enterprise trial [hasFeature] and [hasTier]
    downgrade the store, but [withinLimit('maxProjects', 100)] answers [true]
    from the Enterprise limits ([Infinity]); on the downgraded store, whose
    start plan allows 3 projects, the answer is [false]. *)
Theorem withinLimit_lapsed_uses_trial_plan :
  trial_lapsed visitor lapsed_seller = true
  ∧ snd (hasFeature visitor "auditLogs" lapsed_seller) = downgrade lapsed_seller
  ∧ snd (hasTier visitor 1 lapsed_seller) = downgrade lapsed_seller
  ∧ getEffectiveLimits (planId lapsed_seller) (accountType lapsed_seller)
      !! "maxProjects" = Some VInfinity
  ∧ withinLimit visitor "maxProjects" 100 lapsed_seller = true
  ∧ getEffectiveLimits (planId (downgrade lapsed_seller))
      (accountType (downgrade lapsed_seller)) !! "maxProjects" = Some (VNum 3)
  ∧ withinLimit visitor "maxProjects" 100 (downgrade lapsed_seller) = false.
Proof. repeat split. Qed.

(** * Further properties of the plan catalog *)

Lemma PLANS_members :
  plan_start ∈ PLANS ∧ plan_basic ∈ PLANS ∧ plan_standard ∈ PLANS
  ∧ plan_premium ∈ PLANS ∧ plan_enterprise ∈ PLANS.
Proof. unfold PLANS. repeat split; repeat constructor. Qed.

Lemma in_PLANS_start : plan_start ∈ PLANS.
Proof. apply PLANS_members. Qed.
Lemma in_PLANS_basic : plan_basic ∈ PLANS.
Proof. apply PLANS_members. Qed.
Lemma in_PLANS_standard : plan_standard ∈ PLANS.
Proof. apply PLANS_members. Qed.
Lemma in_PLANS_premium : plan_premium ∈ PLANS.
Proof. apply PLANS_members. Qed.
Lemma in_PLANS_enterprise : plan_enterprise ∈ PLANS.
Proof. apply PLANS_members. Qed.

Lemma getPlanById_catalog (p : Plan) :
  p ∈ PLANS → getPlanById (Some (id p)) = p.
Proof.
  intros Hp.
  apply elem_of_PLANS in Hp as [-> | [-> | [-> | [-> | ->]]]]; reflexivity.
Qed.

Lemma planId_cases (planId : option string) :
  (∃ p, p ∈ PLANS ∧ planId = Some (id p))
  ∨ (∀ p, p ∈ PLANS → Some (id p) ≠ planId).
Proof.
  destruct (decide (planId = Some "start")) as [-> | H0];
    [left; exists plan_start; split; [apply in_PLANS_start | done] |].
  destruct (decide (planId = Some "basic")) as [-> | H1];
    [left; exists plan_basic; split; [apply in_PLANS_basic | done] |].
  destruct (decide (planId = Some "standard")) as [-> | H2];
    [left; exists plan_standard; split; [apply in_PLANS_standard | done] |].
  destruct (decide (planId = Some "premium")) as [-> | H3];
    [left; exists plan_premium; split; [apply in_PLANS_premium | done] |].
  destruct (decide (planId = Some "enterprise")) as [-> | H4];
    [left; exists plan_enterprise; split; [apply in_PLANS_enterprise | done] |].
  right. intros p Hp.
  apply elem_of_PLANS in Hp as [-> | [-> | [-> | [-> | ->]]]]; simpl; congruence.
Qed.

(** An account type counts as a buyer, as a service provider, or as a
    seller like everything else. *)
Definition account_class (accountType : option string) : option string :=
  if bool_decide (accountType = Some "buyer") then Some "buyer"
  else if bool_decide (accountType = Some "service_provider")
       then Some "service_provider"
       else Some "seller".

Lemma getEffectiveLimits_account_class (planId accountType : option string) :
  getEffectiveLimits planId accountType
  = getEffectiveLimits planId (account_class accountType).
Proof.
  unfold account_class, getEffectiveLimits.
  repeat case_bool_decide; simplify_eq; done.
Qed.

Lemma account_class_cases (accountType : option string) :
  account_class accountType ∈
    [Some "seller"; Some "buyer"; Some "service_provider"].
Proof. unfold account_class. repeat case_bool_decide; set_solver. Qed.

Lemma override_tables_unknown (planId : option string) :
  (∀ p, p ∈ PLANS → Some (id p) ≠ planId) →
  patch_for BUYER_LIMIT_OVERRIDES planId = ∅
  ∧ patch_for SERVICE_PROVIDER_LIMIT_OVERRIDES planId = ∅.
Proof.
  intros H. destruct planId as [k |]; [| done].
  assert (k ∉ ["start"; "basic"; "standard"; "premium"; "enterprise"]) as Hk.
  { pose proof (H plan_start in_PLANS_start) as Ka.
    pose proof (H plan_basic in_PLANS_basic) as Kb.
    pose proof (H plan_standard in_PLANS_standard) as Kc.
    pose proof (H plan_premium in_PLANS_premium) as Kd.
    pose proof (H plan_enterprise in_PLANS_enterprise) as Ke.
    simpl in *. intros Hin.
    repeat (apply elem_of_cons in Hin as [-> | Hin]; [congruence |]).
    by apply elem_of_nil in Hin. }
  assert (BUYER_LIMIT_OVERRIDES !! k = None) as Eb.
  { apply not_elem_of_list_to_map_1. simpl. intros Hin. apply Hk.
    by apply list_elem_of_further. }
  assert (SERVICE_PROVIDER_LIMIT_OVERRIDES !! k = None) as Es.
  { apply not_elem_of_list_to_map_1. simpl. exact Hk. }
  unfold patch_for.
  change (Some k ≫= (BUYER_LIMIT_OVERRIDES !!.)) with (BUYER_LIMIT_OVERRIDES !! k).
  change (Some k ≫= (SERVICE_PROVIDER_LIMIT_OVERRIDES !!.))
    with (SERVICE_PROVIDER_LIMIT_OVERRIDES !! k).
  by rewrite Eb, Es.
Qed.

(** X1. The plans offered to an account type are catalog plans in catalog
    order; a buyer is offered exactly the plans that are not seller-only,
    so never the start plan, and every other account type is offered the
    whole catalog. *)
Theorem getPlansForAccountType_spec (accountType : option string) :
  sublist (getPlansForAccountType accountType) PLANS
  ∧ (∀ p, p ∈ getPlansForAccountType accountType ↔
          p ∈ PLANS ∧ (accountType = Some "buyer" → sellerOnly p = false))
  ∧ (plan_start ∈ getPlansForAccountType accountType ↔
     accountType ≠ Some "buyer").
Proof.
  unfold getPlansForAccountType. case_bool_decide as Hb.
  - split; [| split].
    + simpl. unfold PLANS. apply sublist_cons_r. left. reflexivity.
    + intros p. rewrite list_elem_of_In, filter_In, <- list_elem_of_In.
      rewrite negb_true_iff. tauto.
    + split; [| done]. simpl. intros Hin.
      repeat (apply elem_of_cons in Hin as [Hin | Hin]; [discriminate Hin |]).
      by apply elem_of_nil in Hin.
  - split; [done |]. split.
    + intros p. tauto.
    + split; [done |]. intros _. apply in_PLANS_start.
Qed.

Lemma getPlansForAccountType_spec_witness :
  plan_premium ∈ getPlansForAccountType (Some "buyer")
  ∧ plan_start ∈ getPlansForAccountType (Some "service_provider").
Proof.
  split.
  - destruct (getPlansForAccountType_spec (Some "buyer")) as (_ & H & _).
    apply H. split; [apply in_PLANS_premium | reflexivity].
  - destruct (getPlansForAccountType_spec (Some "service_provider")) as (_ & _ & H).
    apply H. discriminate.
Defined.

(** X2. Tier levels follow the catalog order: of two catalog plans the one
    listed earlier has the strictly lower level; and whatever the plan id,
    known or not, its level lies between 0 and 4. *)
Theorem getTierLevel_catalog_order :
  (∀ planId, 0 ≤ getTierLevel planId ≤ 4)
  ∧ (∀ (i j : nat) (p q : Plan),
       PLANS !! i = Some p → PLANS !! j = Some q →
       ((i < j)%nat ↔ getTierLevel (Some (id p)) < getTierLevel (Some (id q)))).
Proof.
  split.
  - intros planId. unfold getTierLevel.
    pose proof (getPlanById_in_PLANS planId) as Hp.
    apply elem_of_PLANS in Hp as [-> | [-> | [-> | [-> | ->]]]];
      vm_compute; split; discriminate.
  - intros i j p q Hi Hj.
    destruct i as [| [| [| [| [| i]]]]]; simpl in Hi; try discriminate Hi;
      injection Hi as <-;
      (destruct j as [| [| [| [| [| j]]]]]; simpl in Hj; try discriminate Hj;
       injection Hj as <-);
      vm_compute; split; first [lia | discriminate | reflexivity | intros H; discriminate H].
Qed.

Lemma getTierLevel_catalog_order_witness :
  getTierLevel (Some "basic") < getTierLevel (Some "premium").
Proof.
  destruct getTierLevel_catalog_order as [_ H].
  apply (H 1%nat 3%nat plan_basic plan_premium); [reflexivity | reflexivity | lia].
Defined.

(** *** Comparing limits *)

(** [v] grants no more than [w]: a flag is not lost, a number does not
    shrink, and nothing exceeds [Infinity]. *)
Definition value_leb (v w : value) : bool :=
  match v, w with
  | VBool b, VBool c => implb b c
  | VNum n, VNum m => n <=? m
  | VNum _, VInfinity => true
  | VInfinity, VInfinity => true
  | _, _ => false
  end.

(** Every entry of [m1] has an entry in [m2] that grants at least as much. *)
Definition limits_leb (m1 m2 : gmap string value) : bool :=
  forallb (fun kv => match m2 !! kv.1 with
                     | Some w => value_leb kv.2 w
                     | None => false
                     end)
          (map_to_list m1).

Lemma limits_leb_spec (m1 m2 : gmap string value) :
  limits_leb m1 m2 = true →
  ∀ k v, m1 !! k = Some v → ∃ w, m2 !! k = Some w ∧ value_leb v w = true.
Proof.
  unfold limits_leb. rewrite forallb_forall. intros H k v Hk.
  specialize (H (k, v)). simpl in H.
  destruct (m2 !! k) as [w |].
  - exists w. split; [done |]. apply H.
    apply list_elem_of_In. by apply elem_of_map_to_list.
  - discriminate H. apply list_elem_of_In. by apply elem_of_map_to_list.
Qed.

Definition account_classes : list (option string) :=
  [Some "seller"; Some "buyer"; Some "service_provider"].

(** The check behind X3, run over the whole catalog. *)
Definition upgrades_keep_limits : bool :=
  forallb (fun a =>
    forallb (fun p =>
      forallb (fun q =>
        implb (getTierLevel (Some (id p)) <=? getTierLevel (Some (id q)))
              (limits_leb (getEffectiveLimits (Some (id p)) a)
                          (getEffectiveLimits (Some (id q)) a)))
        PLANS) PLANS) account_classes.

Lemma upgrades_keep_limits_true : upgrades_keep_limits = true.
Proof. vm_compute. reflexivity. Qed.

(** X3. Moving up the catalog never takes anything away: for every account
    type, if plan [q] has at least the tier of plan [p], every effective
    limit of [p] has a counterpart under [q] that is at least as generous
    (a granted flag stays granted, a numeric limit does not decrease). *)
Theorem upgrade_keeps_limits (accountType : option string) (p q : Plan)
    (k : string) (v : value) :
  p ∈ PLANS → q ∈ PLANS →
  getTierLevel (Some (id p)) ≤ getTierLevel (Some (id q)) →
  getEffectiveLimits (Some (id p)) accountType !! k = Some v →
  ∃ w, getEffectiveLimits (Some (id q)) accountType !! k = Some w
       ∧ value_leb v w = true.
Proof.
  intros Hp Hq Hle.
  rewrite (getEffectiveLimits_account_class (Some (id p))),
          (getEffectiveLimits_account_class (Some (id q))).
  apply limits_leb_spec.
  pose proof upgrades_keep_limits_true as H. unfold upgrades_keep_limits in H.
  rewrite forallb_forall in H.
  specialize (H (account_class accountType)
                (proj1 (list_elem_of_In _ _) (account_class_cases accountType))).
  rewrite forallb_forall in H.
  specialize (H p (proj1 (list_elem_of_In _ _) Hp)).
  rewrite forallb_forall in H.
  specialize (H q (proj1 (list_elem_of_In _ _) Hq)).
  apply Z.leb_le in Hle. rewrite Hle in H. exact H.
Qed.

Lemma upgrade_keeps_limits_witness :
  ∃ w, getEffectiveLimits (Some "premium") (Some "buyer") !! "maxIndustries" = Some w
       ∧ value_leb (VNum 3) w = true.
Proof.
  apply (upgrade_keeps_limits (Some "buyer") plan_standard plan_premium
           "maxIndustries" (VNum 3)).
  - apply in_PLANS_standard.
  - apply in_PLANS_premium.
  - vm_compute. discriminate.
  - reflexivity.
Defined.

(** Every key of [m1] is a key of [m2]. *)
Definition keys_within (m1 m2 : gmap string value) : bool :=
  forallb (fun kv => match m2 !! kv.1 with Some _ => true | None => false end)
          (map_to_list m1).

Lemma keys_within_spec (m1 m2 : gmap string value) :
  keys_within m1 m2 = true → dom m1 ⊆ dom m2.
Proof.
  unfold keys_within. rewrite forallb_forall. intros H k Hk.
  apply elem_of_dom in Hk as [v Hv]. apply elem_of_dom.
  specialize (H (k, v)). simpl in H.
  destruct (m2 !! k); [done |].
  discriminate H. apply list_elem_of_In. by apply elem_of_map_to_list.
Qed.

(** The check behind X4, run over the catalog. *)
Definition patches_keep_keys : bool :=
  forallb (fun a =>
    forallb (fun p =>
      keys_within (getEffectiveLimits (Some (id p)) a) (limits p)
      && keys_within (limits p) (getEffectiveLimits (Some (id p)) a))
      PLANS) account_classes.

Lemma patches_keep_keys_true : patches_keep_keys = true.
Proof. vm_compute. reflexivity. Qed.

(** X4. The override patches only change values. Whatever the plan id and
    the account type, the effective limits have exactly the keys of the
    limits of the plan [getPlanById] resolves the id to. *)
Theorem getEffectiveLimits_same_keys (planId accountType : option string) :
  dom (getEffectiveLimits planId accountType)
  = dom (limits (getPlanById planId)).
Proof.
  destruct (planId_cases planId) as [(p & Hp & ->) | Hun].
  - rewrite getEffectiveLimits_account_class.
    pose proof patches_keep_keys_true as H. unfold patches_keep_keys in H.
    rewrite forallb_forall in H.
    specialize (H (account_class accountType)
                  (proj1 (list_elem_of_In _ _) (account_class_cases accountType))).
    rewrite forallb_forall in H.
    specialize (H p (proj1 (list_elem_of_In _ _) Hp)).
    apply andb_true_iff in H as [H1 H2].
    apply keys_within_spec in H1, H2.
    rewrite (getPlanById_catalog p Hp).
    apply set_eq. intros k. split; [apply H1 | apply H2].
  - unfold getEffectiveLimits.
    destruct (override_tables_unknown planId Hun) as [-> ->].
    rewrite (getPlanById_unknown planId Hun), (left_id_L ∅ (∪)).
    assert (is_Some (limits plan_start !! "executiveSummary")) as Hes
      by (by eexists).
    repeat case_bool_decide; [done | |]; by apply dom_insert_lookup_L.
Qed.

Lemma getEffectiveLimits_unknown (planId accountType : option string) :
  (∀ p, p ∈ PLANS → Some (id p) ≠ planId) →
  getEffectiveLimits planId accountType = start_limits.
Proof.
  intros Hun. unfold getEffectiveLimits.
  destruct (override_tables_unknown planId Hun) as [-> ->].
  rewrite (getPlanById_unknown planId Hun), (left_id_L ∅ (∪)).
  repeat case_bool_decide; [done | |]; by apply insert_id.
Qed.

(** X5. A plan id outside the catalog gives every account type, buyers and
    service providers included, exactly the limits of the start plan: the
    override tables are indexed by the id as given and have no entry for
    it. *)
Theorem getEffectiveLimits_unknown_plan (planId accountType : option string) :
  (∀ p, p ∈ PLANS → Some (id p) ≠ planId) →
  getEffectiveLimits planId accountType = limits plan_start.
Proof.
  intros Hun. unfold getEffectiveLimits.
  destruct (override_tables_unknown planId Hun) as [Hbuyer Hprovider].
  rewrite Hbuyer, Hprovider, (getPlanById_unknown planId Hun).
  rewrite (left_id_L ∅ (∪)).
  assert (<["executiveSummary" := VBool false]> (limits plan_start)
          = limits plan_start) as Hsame by (by apply insert_id).
  repeat case_bool_decide; [reflexivity | exact Hsame | exact Hsame].
Qed.

Lemma getEffectiveLimits_unknown_plan_witness :
  getEffectiveLimits (Some "gold") (Some "service_provider") = limits plan_start.
Proof.
  apply (getEffectiveLimits_unknown_plan (Some "gold") (Some "service_provider")).
  intros p Hp.
  apply elem_of_PLANS in Hp as [-> | [-> | [-> | [-> | ->]]]]; discriminate.
Defined.

(** The check behind X6, run over the catalog. *)
Definition service_providers_locked : bool :=
  forallb (fun p =>
    bool_decide (getEffectiveLimits (Some (id p)) (Some "service_provider")
                   !! "maxIndustries" = Some (VNum 0))
    && bool_decide (getEffectiveLimits (Some (id p)) (Some "service_provider")
                      !! "maxCategories" = Some (VNum 0)))
    PLANS.

Lemma service_providers_locked_true : service_providers_locked = true.
Proof. vm_compute. reflexivity. Qed.

(** X6. On every catalog plan a service provider has room for no industry
    and no equipment category: for a session that is not superadmin,
    [withinLimit('maxIndustries', n)] and [withinLimit('maxCategories', n)]
    are false for every count [n >= 0]. *)
Theorem service_provider_no_industries (e : Env) (p : Plan) (n : Z)
    (s : SubState) :
  p ∈ PLANS → planId s = Some (id p) →
  accountType s = Some "service_provider" →
  _isSuperAdmin e = false → 0 ≤ n →
  withinLimit e "maxIndustries" n s = false
  ∧ withinLimit e "maxCategories" n s = false.
Proof.
  intros Hp Hpl Hac Hsa Hn.
  pose proof service_providers_locked_true as H.
  unfold service_providers_locked in H. rewrite forallb_forall in H.
  specialize (H p (proj1 (list_elem_of_In _ _) Hp)).
  apply andb_true_iff in H as [H1 H2].
  apply bool_decide_eq_true in H1, H2.
  unfold withinLimit.
  rewrite Hsa, Hpl, Hac, (js_get_own _ _ _ H1), (js_get_own _ _ _ H2). simpl.
  split; apply Z.ltb_ge; lia.
Qed.

Definition provider_on_standard : SubState :=
  mkSub (Some "standard") (Some "service_provider") "active" None "monthly" ∅ None.

Lemma service_provider_no_industries_witness :
  withinLimit visitor "maxIndustries" 0 provider_on_standard = false
  ∧ withinLimit visitor "maxCategories" 0 provider_on_standard = false.
Proof.
  apply (service_provider_no_industries visitor plan_standard 0 provider_on_standard).
  - apply in_PLANS_standard.
  - reflexivity.
  - reflexivity.
  - reflexivity.
  - lia.
Defined.

(** The check behind X7, run over the catalog. *)
Definition buyers_only_restricted : bool :=
  forallb (fun p =>
    limits_leb (delete "executiveSummary"
                  (getEffectiveLimits (Some (id p)) (Some "buyer")))
               (getEffectiveLimits (Some (id p)) (Some "seller")))
    PLANS.

Lemma buyers_only_restricted_true : buyers_only_restricted = true.
Proof. vm_compute. reflexivity. Qed.

Lemma start_limits_leb : limits_leb start_limits start_limits = true.
Proof. vm_compute. reflexivity. Qed.

(** X7. Apart from [executiveSummary], which only buyers may see, the
    buyer patch only restricts: on every plan id, each effective limit of a
    buyer is at most the seller's effective limit for the same key. *)
Theorem buyer_limits_below_seller (planId : option string) (k : string)
    (v : value) :
  k ≠ "executiveSummary" →
  getEffectiveLimits planId (Some "buyer") !! k = Some v →
  ∃ w, getEffectiveLimits planId (Some "seller") !! k = Some w
       ∧ value_leb v w = true.
Proof.
  intros Hk Hv.
  destruct (planId_cases planId) as [(p & Hp & ->) | Hun].
  - pose proof buyers_only_restricted_true as H.
    unfold buyers_only_restricted in H. rewrite forallb_forall in H.
    specialize (H p (proj1 (list_elem_of_In _ _) Hp)).
    apply (limits_leb_spec _ _ H k v).
    by rewrite lookup_delete_ne.
  - rewrite (getEffectiveLimits_unknown planId (Some "buyer") Hun) in Hv.
    rewrite (getEffectiveLimits_unknown planId (Some "seller") Hun).
    by apply (limits_leb_spec _ _ start_limits_leb).
Qed.

Lemma buyer_limits_below_seller_witness :
  ∃ w, getEffectiveLimits (Some "basic") (Some "seller") !! "maxIndustries" = Some w
       ∧ value_leb (VNum 1) w = true.
Proof.
  apply (buyer_limits_below_seller (Some "basic") "maxIndustries" (VNum 1)).
  - discriminate.
  - reflexivity.
Defined.

(** * Further properties of the subscription store *)

Lemma day_ms_pos : 0 < day_ms.
Proof. reflexivity. Qed.

(** [Math.ceil(x / d)] as [- ((- x) / d)]. *)
Lemma ceil_pos (x d : Z) : 0 < d → (0 < - ((- x) / d) ↔ 0 < x).
Proof.
  intros Hd.
  pose proof (Z.div_mod (- x) d ltac:(lia)) as E.
  pose proof (Z.mod_pos_bound (- x) d Hd) as B.
  split; intros H; nia.
Qed.

Lemma ceil_add (x k d : Z) :
  0 < d → - ((- (x + k * d)) / d) = - ((- x) / d) + k.
Proof.
  intros Hd. replace (- (x + k * d)) with (- x + (- k) * d) by lia.
  rewrite Z.div_add by lia. lia.
Qed.

Lemma ceil_mul (k d : Z) : 0 < d → - ((- (k * d)) / d) = k.
Proof.
  intros Hd. replace (- (k * d)) with ((- k) * d) by lia.
  rewrite Z.div_mul by lia. lia.
Qed.

(** X8. [trialDaysLeft] is never negative, and it is positive exactly when
    [isTrial] holds: a trial that ends at this very instant or earlier, a
    trial without end date and a status other than [trialing] all count 0
    days. *)
Theorem trialDaysLeft_isTrial (e : Env) (s : SubState) :
  0 ≤ trialDaysLeft e s
  ∧ (isTrial e s = true ↔ 0 < trialDaysLeft e s).
Proof.
  unfold trialDaysLeft, isTrial.
  destruct (trialEndsAt s) as [t |]; [| split; [lia | split; [done | lia]]].
  case_bool_decide as Hst; simpl; [| split; [lia | split; [done | lia]]].
  split; [lia |].
  rewrite Z.ltb_lt, Z.max_lt_iff.
  pose proof (ceil_pos (t - now e) day_ms day_ms_pos) as H.
  split; [intros Hlt; right; apply H; lia |].
  intros [Hlt | Hlt]; [lia |]. apply H in Hlt. lia.
Qed.

Lemma trialDaysLeft_isTrial_witness :
  0 < trialDaysLeft visitor (startTrial visitor initial).
Proof.
  destruct (trialDaysLeft_isTrial visitor (startTrial visitor initial)) as [_ H].
  apply H. reflexivity.
Defined.

(** A promo of the table grants a positive number of days on a named plan. *)
Lemma PROMO_CODES_grants (code : string) (promo : Promo) :
  PROMO_CODES !! code = Some promo →
  0 < trialDays promo ∧ promo_planId promo ≠ ""
  ∧ promo_planId promo ∈ ["basic"; "standard"; "premium"].
Proof.
  revert code promo. apply map_Forall_lookup.
  unfold PROMO_CODES. simpl.
  repeat (apply map_Forall_insert_2; [repeat split; try done; set_solver |]).
  apply map_Forall_empty.
Qed.

(** X9. An accepted promo code, whichever it is, puts the store on the
    promo's plan with status [trialing], ending [trialDays] days from now,
    and records the normalised code; account type, billing period and
    overrides stay. Read at the same instant, the store is in trial with
    exactly [trialDays] days left. *)
Theorem applyPromoCode_accepted (e : Env) (code : option string)
    (s : SubState) (promo : Promo) :
  PROMO_CODES !! normalize code = Some promo →
  applyPromoCode e code s
  = (true, mkSub (Some (promo_planId promo)) (accountType s) "trialing"
             (Some (now e + trialDays promo * day_ms))
             (billingPeriod s) (overrides s) (Some (normalize code)))
  ∧ isTrial e (snd (applyPromoCode e code s)) = true
  ∧ trialDaysLeft e (snd (applyPromoCode e code s)) = trialDays promo.
Proof.
  intros H.
  destruct (PROMO_CODES_grants _ _ H) as (Hd & Hp & _).
  assert (applyPromoCode e code s
          = (true, mkSub (Some (promo_planId promo)) (accountType s) "trialing"
                     (Some (now e + trialDays promo * day_ms))
                     (billingPeriod s) (overrides s) (Some (normalize code))))
    as ->.
  { unfold applyPromoCode, getPromoConfig. rewrite H.
    case_bool_decide as E; [rewrite E in H; discriminate H |].
    rewrite (bool_decide_eq_false_2 _ Hp).
    destruct (trialDays promo =? 0) eqn:E0; [apply Z.eqb_eq in E0; lia | done]. }
  split; [done |]. unfold isTrial, trialDaysLeft. simpl.
  pose proof day_ms_pos. split.
  - apply Z.ltb_lt. nia.
  - replace (now e + trialDays promo * day_ms - now e)
      with (trialDays promo * day_ms) by lia.
    rewrite ceil_mul by done. lia.
Qed.

Lemma applyPromoCode_accepted_witness :
  trialDaysLeft visitor (snd (applyPromoCode visitor (Some " strefexvip") initial))
  = 90.
Proof.
  apply (applyPromoCode_accepted visitor (Some " strefexvip") initial
           (mkPromo 90 "premium" "90-day Premium trial")).
  reflexivity.
Defined.

(** The end date [extendTrial] computes: [extraDays] days after the later of
    now and the stored end date. *)
Definition extended_end (e : Env) (extraDays : Z) (s : SubState) : Z :=
  (if now e <? default (now e) (trialEndsAt s)
   then default (now e) (trialEndsAt s) else now e)
  + extraDays * day_ms.

(** X10. [extendTrial] never touches plan, account type, billing period,
    overrides or promo code. When the end date it computes lies outside
    the range of [Date] the call throws and the store stays as it was.
    Otherwise the status becomes [trialing] with that end date: a running
    trial is lengthened by the days given, and when the stored end date is
    missing or not in the future the trial is counted from now, so that
    [extraDays] days are left (none for a negative number). *)
Theorem extendTrial_days (e : Env) (extraDays : Z) (s : SubState) :
  let s' := extendTrial e extraDays s in
  (planId s' = planId s ∧ accountType s' = accountType s
   ∧ billingPeriod s' = billingPeriod s ∧ overrides s' = overrides s
   ∧ promoCode s' = promoCode s)
  ∧ (valid_time (extended_end e extraDays s) = false → s' = s)
  ∧ (valid_time (extended_end e extraDays s) = true →
     status s' = "trialing"
     ∧ trialEndsAt s' = Some (extended_end e extraDays s)
     ∧ (isTrial e s = true → 0 ≤ extraDays →
        trialDaysLeft e s' = trialDaysLeft e s + extraDays)
     ∧ ((∀ t, trialEndsAt s = Some t → t ≤ now e) →
        trialDaysLeft e s' = Z.max 0 extraDays)).
Proof.
  pose proof day_ms_pos as Hd.
  unfold extendTrial. fold (extended_end e extraDays s).
  destruct (valid_time (extended_end e extraDays s)) eqn:Hv; simpl.
  2: { repeat split; done. }
  split; [done |]. split; [done |]. intros _.
  split; [done |]. split; [done |].
  unfold extended_end, trialDaysLeft, isTrial. simpl. split.
  - destruct (trialEndsAt s) as [t |]; [| done]. simpl.
    intros Ht Hx. apply andb_true_iff in Ht as [Hst Hlt].
    rewrite Hst, Hlt. apply Z.ltb_lt in Hlt.
    replace (t + extraDays * day_ms - now e)
      with ((t - now e) + extraDays * day_ms) by lia.
    rewrite ceil_add by done.
    pose proof (proj2 (ceil_pos (t - now e) day_ms Hd) ltac:(lia)). lia.
  - intros Hpast.
    assert ((if now e <? default (now e) (trialEndsAt s)
             then default (now e) (trialEndsAt s) else now e) = now e) as ->.
    { destruct (trialEndsAt s) as [t |]; simpl.
      - specialize (Hpast t eq_refl).
        destruct (now e <? t) eqn:E; [apply Z.ltb_lt in E; lia | done].
      - by rewrite Z.ltb_irrefl. }
    replace (now e + extraDays * day_ms - now e) with (extraDays * day_ms) by lia.
    by rewrite ceil_mul.
Qed.

Lemma extendTrial_days_witness :
  trialDaysLeft visitor (extendTrial visitor 7 (startTrial visitor initial))
  = trialDaysLeft visitor (startTrial visitor initial) + 7
  ∧ trialDaysLeft visitor (extendTrial visitor 7 (downgrade lapsed_seller))
    = Z.max 0 7
  ∧ extendTrial visitor 200000000 initial = initial.
Proof.
  split; [| split].
  - destruct (extendTrial_days visitor 7 (startTrial visitor initial))
      as (_ & _ & H).
    destruct (H eq_refl) as (_ & _ & Hrun & _). apply Hrun; [reflexivity | lia].
  - destruct (extendTrial_days visitor 7 (downgrade lapsed_seller))
      as (_ & _ & H).
    destruct (H eq_refl) as (_ & _ & _ & Hnow). apply Hnow.
    intros t Ht. discriminate Ht.
  - destruct (extendTrial_days visitor 200000000 initial) as (_ & H & _).
    apply H. reflexivity.
Defined.

(** *** Life of a buyer trial *)

Lemma read_only_downgrade_buyer (s : SubState) :
  accountType s = Some "buyer" → read_only (downgrade s) = true.
Proof. intros H. unfold read_only, downgrade. simpl. by rewrite H. Qed.

(** What a store in [trial_expired] or [canceled] answers for a key: the
    two baseline flags, the member found under an inherited name, and
    [false] for everything else. *)
Definition baseline_answer (featureKey : string) : value :=
  if bool_decide (featureKey = "basicDashboard" ∨ featureKey = "companyProfile")
  then VBool true
  else if bool_decide (featureKey ∈ Object_prototype_names) then VMember
  else VBool false.

Lemma get_or_false_baseline (featureKey : string) :
  get_or_false baseline featureKey = baseline_answer featureKey.
Proof.
  unfold baseline_answer, get_or_false, js_get, baseline.
  destruct (decide (featureKey = "basicDashboard")) as [-> | N1];
    [reflexivity |].
  destruct (decide (featureKey = "companyProfile")) as [-> | N2];
    [reflexivity |].
  rewrite (bool_decide_eq_false_2 (_ ∨ _)) by (intros [? | ?]; done).
  simpl. rewrite !lookup_insert_ne by done. rewrite lookup_empty.
  by destruct (bool_decide (featureKey ∈ Object_prototype_names)).
Qed.

(** X11. With clocks inside the range of [Date], [startBuyerTrial(days)]
    with [days > 0] opens a trial on [basic] for a buyer with [days] days
    left. Once the clock has passed its end, the first [hasTier] of a
    session that is not superadmin answers for tier 0 and leaves the store
    on [basic] with status [trial_expired]; from then on, at any time,
    [hasFeature] grants the two baseline features, hands out the inherited
    member for a name of [Object.prototype], and refuses everything else. *)
Theorem buyer_trial_lifecycle (e e1 e2 : Env) (days requiredTier : Z)
    (featureKey : string) (s : SubState) :
  valid_time (now e) = true → valid_time (now e1) = true →
  0 < days →
  now e + days * day_ms < now e1 →
  _isSuperAdmin e1 = false → _isSuperAdmin e2 = false →
  let s0 := startBuyerTrial e days s in
  let s1 := snd (hasTier e1 requiredTier s0) in
  (isTrial e s0 = true ∧ trialDaysLeft e s0 = days
   ∧ planId s0 = Some "basic" ∧ accountType s0 = Some "buyer")
  ∧ fst (hasTier e1 requiredTier s0) = (requiredTier <=? 0)
  ∧ (planId s1 = Some "basic" ∧ status s1 = "trial_expired"
     ∧ trialEndsAt s1 = None ∧ accountType s1 = Some "buyer")
  ∧ hasFeature e2 featureKey s1 = (baseline_answer featureKey, s1).
Proof.
  intros Hv Hv1 Hdays Hlate Hsa1 Hsa2 s0 s1.
  pose proof day_ms_pos as Hd.
  assert (valid_time (now e + days * day_ms) = true) as Hend.
  { unfold valid_time in *.
    apply andb_true_iff in Hv as [Hlo _]. apply andb_true_iff in Hv1 as [_ Hhi].
    apply Z.leb_le in Hlo, Hhi.
    apply andb_true_iff. split; apply Z.leb_le; nia. }
  assert (s0 = mkSub (Some "basic") (Some "buyer") "trialing"
                 (Some (now e + days * day_ms))
                 (billingPeriod s) (overrides s) (promoCode s)) as Hs0.
  { subst s0. unfold startBuyerTrial. by rewrite Hend. }
  assert (trial_lapsed e1 s0 = true) as Hl.
  { rewrite Hs0. unfold trial_lapsed. simpl. by apply Z.ltb_lt. }
  assert (hasTier e1 requiredTier s0 = (requiredTier <=? 0, downgrade s0)) as Ht.
  { unfold hasTier. by rewrite Hsa1, Hl. }
  subst s1. rewrite Ht. simpl.
  split; [| split; [done |]; split].
  - rewrite Hs0. unfold isTrial, trialDaysLeft. simpl. repeat split.
    + apply Z.ltb_lt. nia.
    + replace (now e + days * day_ms - now e) with (days * day_ms) by lia.
      rewrite ceil_mul by done. lia.
  - by rewrite Hs0.
  - unfold hasFeature. rewrite Hsa2, downgrade_not_lapsed.
    rewrite read_only_downgrade_buyer by (by rewrite Hs0).
    by rewrite get_or_false_baseline.
Qed.

Definition next_year : Env := mkEnv (Some "user") (now visitor + 365 * day_ms).

Lemma buyer_trial_lifecycle_witness :
  hasFeature next_year "companyProfile"
    (snd (hasTier next_year 1 (startBuyerTrial visitor 30 initial)))
  = (baseline_answer "companyProfile",
     snd (hasTier next_year 1 (startBuyerTrial visitor 30 initial))).
Proof.
  apply (buyer_trial_lifecycle visitor next_year next_year 30 1 "companyProfile"
           initial); reflexivity.
Defined.

(** *** Queries *)

Lemma read_only_downgrade_other (s : SubState) :
  accountType s ≠ Some "buyer" →
  read_only (downgrade s) = false ∧ planId (downgrade s) = Some "start".
Proof.
  intros H. unfold read_only, downgrade. simpl.
  by rewrite (bool_decide_eq_false_2 _ H).
Qed.

(** X12. Asking again changes nothing: after a [hasFeature] or a [hasTier]
    call, a second query at the same instant leaves the store as the first
    left it, and [hasTier] repeats its answer. *)
Theorem queries_settle (e : Env) (featureKey featureKey' : string)
    (requiredTier : Z) (s : SubState) :
  hasTier e requiredTier (snd (hasTier e requiredTier s))
  = hasTier e requiredTier s
  ∧ snd (hasFeature e featureKey' (snd (hasFeature e featureKey s)))
    = snd (hasFeature e featureKey s)
  ∧ snd (hasTier e requiredTier (snd (hasFeature e featureKey s)))
    = snd (hasFeature e featureKey s)
  ∧ snd (hasFeature e featureKey (snd (hasTier e requiredTier s)))
    = snd (hasTier e requiredTier s).
Proof.
  assert (∀ k s', snd (hasFeature e k (downgrade s')) = downgrade s') as HF.
  { intros k s'. unfold hasFeature. rewrite downgrade_not_lapsed.
    destruct (_isSuperAdmin e); [done |].
    destruct (read_only (downgrade s')); [done |].
    by destruct (js_get (overrides (downgrade s')) k). }
  assert (∀ s', snd (hasTier e requiredTier (downgrade s')) = downgrade s') as HT.
  { intros s'. unfold hasTier. rewrite downgrade_not_lapsed.
    destruct (_isSuperAdmin e); [done |].
    by destruct (read_only (downgrade s')). }
  assert (∀ k s', trial_lapsed e s' = false → snd (hasFeature e k s') = s') as HF'.
  { intros k s' Hl. unfold hasFeature. rewrite Hl.
    destruct (_isSuperAdmin e); [done |].
    destruct (read_only s'); [done |]. by destruct (js_get (overrides s') k). }
  assert (∀ s', trial_lapsed e s' = false → snd (hasTier e requiredTier s') = s')
    as HT'.
  { intros s' Hl. unfold hasTier. rewrite Hl.
    destruct (_isSuperAdmin e); [done |]. by destruct (read_only s'). }
  destruct (_isSuperAdmin e) eqn:Hsa.
  { unfold hasTier, hasFeature. rewrite !Hsa. simpl. by rewrite ?Hsa. }
  destruct (trial_lapsed e s) eqn:Hl.
  - rewrite (hasFeature_lapsed e featureKey s Hsa Hl),
            (hasTier_lapsed e requiredTier s Hsa Hl). simpl.
    rewrite HF, HT. repeat split; try done.
    unfold hasTier. rewrite Hsa, downgrade_not_lapsed.
    destruct (decide (accountType s = Some "buyer")) as [Hb | Hb].
    + by rewrite (read_only_downgrade_buyer s Hb).
    + destruct (read_only_downgrade_other s Hb) as [-> ->]. done.
  - repeat (rewrite (HF' _ s Hl) || rewrite (HT' s Hl)). done.
Qed.

(** X13. In the states [trial_expired] and [canceled] a session that is not
    superadmin gets [true] for the two baseline features and for no other
    key, whatever the plan, the account type and the overrides say: a name
    inherited from [Object.prototype] yields the inherited member and every
    other key [false]. [hasTier] grants tier 0 only; neither call touches
    the store. *)
Theorem read_only_entitlements (e : Env) (featureKey : string)
    (requiredTier : Z) (s : SubState) :
  _isSuperAdmin e = false →
  status s = "trial_expired" ∨ status s = "canceled" →
  hasFeature e featureKey s = (baseline_answer featureKey, s)
  ∧ (fst (hasFeature e featureKey s) = VBool true ↔
     featureKey = "basicDashboard" ∨ featureKey = "companyProfile")
  ∧ (fst (hasFeature e featureKey s) = VMember ↔
     featureKey ∈ Object_prototype_names)
  ∧ hasTier e requiredTier s = (requiredTier <=? 0, s).
Proof.
  intros Hsa Hst.
  assert (trial_lapsed e s = false) as Hl.
  { unfold trial_lapsed. destruct Hst as [-> | ->]; done. }
  assert (read_only s = true) as Hro.
  { unfold read_only. destruct Hst as [-> | ->]; done. }
  assert (hasFeature e featureKey s = (baseline_answer featureKey, s)) as ->.
  { unfold hasFeature. by rewrite Hsa, Hl, Hro, get_or_false_baseline. }
  split; [done |]. simpl. unfold baseline_answer, hasTier.
  rewrite Hsa, Hl, Hro. split; [| split; [| done]].
  - case_bool_decide as Hb; [done |]. case_bool_decide; split; done.
  - case_bool_decide as Hb.
    + split; [done |]. intros Hin. exfalso.
      unfold Object_prototype_names in Hin.
      destruct Hb as [-> | ->];
        repeat (apply elem_of_cons in Hin as [Hin | Hin]; [discriminate Hin |]);
        by apply elem_of_nil in Hin.
    + case_bool_decide; split; done.
Qed.

Definition canceled_enterprise : SubState :=
  mkSub (Some "enterprise") (Some "seller") "canceled" None "annual"
        {["auditLogs" := VBool true]} None.

Lemma read_only_entitlements_witness :
  hasFeature visitor "auditLogs" canceled_enterprise
  = (baseline_answer "auditLogs", canceled_enterprise)
  ∧ hasTier visitor 1 canceled_enterprise = (1 <=? 0, canceled_enterprise).
Proof.
  destruct (read_only_entitlements visitor "auditLogs" 1 canceled_enterprise)
    as (H1 & _ & _ & H2).
  - reflexivity.
  - right. reflexivity.
  - by split.
Defined.

Lemma getTierLevel_bounds (planId : option string) :
  0 ≤ getTierLevel planId ≤ 4.
Proof.
  unfold getTierLevel.
  pose proof (getPlanById_in_PLANS planId) as Hp.
  apply elem_of_PLANS in Hp as [-> | [-> | [-> | [-> | ->]]]];
    vm_compute; split; discriminate.
Qed.

(** X14. For a session that is not superadmin, on a store that is neither a
    lapsed trial nor [trial_expired] nor [canceled], an override for a key
    decides [hasFeature] for that key, against the plan in either
    direction. A key without override is answered from the effective
    limits, [false] when they have no entry, unless it is a name inherited
    from [Object.prototype]: [featureKey in overrides] holds of such a name
    and the inherited member is returned. *)
Theorem override_decides (e : Env) (featureKey : string)
    (o : gmap string value) (s : SubState) :
  _isSuperAdmin e = false → trial_lapsed e s = false → read_only s = false →
  (∀ v, o !! featureKey = Some v →
        hasFeature e featureKey (setOverrides o s) = (v, setOverrides o s))
  ∧ (o !! featureKey = None → featureKey ∉ Object_prototype_names →
       hasFeature e featureKey (setOverrides o s)
       = (default (VBool false)
            (getEffectiveLimits (planId s) (accountType s) !! featureKey),
          setOverrides o s))
  ∧ (o !! featureKey = None → featureKey ∈ Object_prototype_names →
       hasFeature e featureKey (setOverrides o s) = (VMember, setOverrides o s)).
Proof.
  intros Hsa Hl Hro.
  assert (trial_lapsed e (setOverrides o s) = false) as Hl' by exact Hl.
  assert (read_only (setOverrides o s) = false) as Hro' by exact Hro.
  unfold hasFeature. rewrite Hsa, Hl', Hro'. simpl.
  split; [| split].
  - intros v Hv. by rewrite (js_get_own _ _ _ Hv).
  - intros Hnone Hplain. rewrite (js_get_undefined _ _ Hnone Hplain).
    unfold get_or_false, js_get.
    destruct (getEffectiveLimits (planId s) (accountType s) !! featureKey);
      [done |]. by rewrite bool_decide_eq_false_2.
  - intros Hnone Hin. by rewrite (js_get_inherited _ _ Hnone Hin).
Qed.

Lemma override_decides_witness :
  hasFeature visitor "executiveSummary"
    (setOverrides {["executiveSummary" := VBool true]} initial)
  = (VBool true, setOverrides {["executiveSummary" := VBool true]} initial)
  ∧ hasFeature visitor "noSuchLimit"
      (setOverrides {["companyProfile" := VBool false]} initial)
    = (VBool false, setOverrides {["companyProfile" := VBool false]} initial)
  ∧ hasFeature visitor "toString" (setOverrides ∅ initial)
    = (VMember, setOverrides ∅ initial).
Proof.
  split; [| split].
  - destruct (override_decides visitor "executiveSummary"
                {["executiveSummary" := VBool true]} initial eq_refl eq_refl eq_refl)
      as (H & _). apply H. reflexivity.
  - destruct (override_decides visitor "noSuchLimit"
                {["companyProfile" := VBool false]} initial eq_refl eq_refl eq_refl)
      as (_ & H & _). apply H; [reflexivity | apply noSuchLimit_plain].
  - destruct (override_decides visitor "toString" ∅ initial eq_refl eq_refl eq_refl)
      as (_ & _ & H). apply H; [reflexivity | apply toString_inherited].
Defined.

(** X15. For a session that is not superadmin, [hasTier] is downward
    closed: a store that meets a tier meets every lower one. Tier 0 is met
    by every store and a tier above 4 by none. *)
Theorem hasTier_downward_closed (e : Env) (r r' : Z) (s : SubState) :
  _isSuperAdmin e = false →
  fst (hasTier e 0 s) = true
  ∧ (4 < r → fst (hasTier e r s) = false)
  ∧ (r' ≤ r → fst (hasTier e r s) = true → fst (hasTier e r' s) = true).
Proof.
  intros Hsa. unfold hasTier. rewrite Hsa.
  pose proof (getTierLevel_bounds (planId s)) as Hb. unfold TIERS.START.
  destruct (trial_lapsed e s); [| destruct (read_only s)]; simpl;
    rewrite ?Z.leb_le, ?Z.leb_gt; repeat split; lia.
Qed.

Lemma hasTier_downward_closed_witness :
  fst (hasTier visitor 0 lapsed_buyer) = true
  ∧ fst (hasTier visitor 5 (startTrial visitor initial)) = false
  ∧ fst (hasTier visitor 2 (startTrial visitor initial)) = true.
Proof.
  split; [| split].
  - destruct (hasTier_downward_closed visitor 0 0 lapsed_buyer eq_refl)
      as (H0 & _ & _). exact H0.
  - destruct (hasTier_downward_closed visitor 5 0 (startTrial visitor initial)
                eq_refl) as (_ & Habove & _). apply Habove. lia.
  - destruct (hasTier_downward_closed visitor 4 2 (startTrial visitor initial)
                eq_refl) as (_ & _ & Hdown). apply Hdown; [lia | reflexivity].
Defined.

(** X16. The [useLimit] hook and the store's [withinLimit] agree on what is
    allowed, for every session, key and count. The hook reports no finite
    limit exactly when it reports room without end, and a finite remainder
    is never negative and positive exactly when the count is allowed. *)
Theorem useLimit_agrees_withinLimit (e : Env) (limitKey : string)
    (currentCount : Z) (s : SubState) :
  allowed (useLimit e limitKey currentCount s)
  = withinLimit e limitKey currentCount s
  ∧ (limit (useLimit e limitKey currentCount s) = VInfinity ↔
     remaining (useLimit e limitKey currentCount s) = VInfinity)
  ∧ (∀ m, remaining (useLimit e limitKey currentCount s) = VNum m →
          0 ≤ m ∧ (allowed (useLimit e limitKey currentCount s) = true ↔ 0 < m)).
Proof.
  unfold useLimit, withinLimit, _isSuperAdmin.
  destruct (bool_decide (role e = Some "superadmin")); simpl;
    [repeat split; done |].
  destruct (js_get (getEffectiveLimits (planId s) (accountType s)) limitKey)
    as [[b | n | | |] | |]; simpl; (split; [done |]); (split; [done |]);
    intros m Hm; try discriminate Hm; injection Hm as <-;
    rewrite Z.ltb_lt; lia.
Qed.

Lemma useLimit_agrees_withinLimit_witness :
  0 ≤ 1 ∧ (allowed (useLimit visitor "maxProjects" 2 initial) = true ↔ 0 < 1).
Proof.
  destruct (useLimit_agrees_withinLimit visitor "maxProjects" 2 initial)
    as (_ & _ & H).
  apply H. reflexivity.
Defined.

(** X17. What a transition leaves alone. The account type changes only
    through [setAccountType] and [startBuyerTrial]; the billing period only
    through [setBillingPeriod] and [downgrade]; the overrides only through
    [setOverrides] and [downgrade]; the promo code only through
    [applyPromoCode] and [downgrade]. *)
Theorem transitions_frame (e : Env) (t : Transition) (s : SubState) :
  (accountType (step e t s) = accountType s
   ∨ (∃ a, t = TSetAccountType a) ∨ (∃ days, t = TStartBuyerTrial days))
  ∧ (billingPeriod (step e t s) = billingPeriod s
     ∨ (∃ b, t = TSetBillingPeriod b) ∨ t = TDowngrade)
  ∧ (overrides (step e t s) = overrides s
     ∨ (∃ o, t = TSetOverrides o) ∨ t = TDowngrade)
  ∧ (promoCode (step e t s) = promoCode s
     ∨ (∃ code, t = TApplyPromoCode code) ∨ t = TDowngrade).
Proof.
  destruct t as [p st tr | a | b | | days | d | code | | o]; simpl;
    try (repeat split; eauto; fail).
  - unfold startBuyerTrial.
    destruct (valid_time (now e + days * day_ms)); repeat split; eauto.
  - unfold extendTrial. simpl.
    match goal with |- context [valid_time ?x] => destruct (valid_time x) end;
      repeat split; eauto.
  - unfold applyPromoCode. case_bool_decide; [repeat split; eauto |].
    destruct (getPromoConfig (normalize code)); repeat split; eauto.
Qed.

(** The calls that throw a [RangeError] before anything is written: a
    trial end outside the range of [Date]. *)
Definition throws (e : Env) (t : Transition) (s : SubState) : bool :=
  match t with
  | TStartBuyerTrial days => negb (valid_time (now e + days * day_ms))
  | TExtendTrial d => negb (valid_time (extended_end e d s))
  | _ => false
  end.

(** A promo code, if the transition applies one, is written in ASCII. *)
Definition ascii_code (t : Transition) : Prop :=
  ∀ code, t = TApplyPromoCode code → ascii_only (default "" code) = true.

(** X18. For promo codes written in ASCII: the object a transition writes
    to local storage carries the plan, status, trial end, account type and
    overrides of the store it leaves. Its billing period is the store's
    too, except for [startBuyerTrial], which writes [monthly] while the
    store keeps its own; its promo code, when written, is the store's, and
    the four plain setters write none. Nothing is written exactly when a
    promo code is rejected or the call throws on a trial end outside the
    range of [Date], and then the store is unchanged. *)
Theorem persisted_matches_store (e : Env) (t : Transition) (s : SubState) :
  ascii_code t →
  match persisted e t s with
  | None =>
      ((∃ code, t = TApplyPromoCode code ∧ fst (applyPromoCode e code s) = false)
       ∨ throws e t s = true)
      ∧ step e t s = s
  | Some d =>
      throws e t s = false
      ∧ (∀ code, t = TApplyPromoCode code → fst (applyPromoCode e code s) = true)
      ∧ data_planId d = planId (step e t s)
      ∧ data_status d = status (step e t s)
      ∧ data_trialEndsAt d = trialEndsAt (step e t s)
      ∧ data_accountType d = accountType (step e t s)
      ∧ data_overrides d = overrides (step e t s)
      ∧ (data_billingPeriod d = billingPeriod (step e t s)
         ∨ (∃ days, t = TStartBuyerTrial days) ∧ data_billingPeriod d = "monthly")
      ∧ (∀ pc, data_promoCode d = Some pc → pc = promoCode (step e t s))
      ∧ (data_promoCode d = None ↔
         (∃ p st tr, t = TSetPlan p st tr) ∨ (∃ a, t = TSetAccountType a)
         ∨ (∃ b, t = TSetBillingPeriod b) ∨ (∃ o, t = TSetOverrides o))
  end.
Proof.
  intros _.
  assert (∀ t' : Transition,
            (∀ p st tr, t' ≠ TSetPlan p st tr) → (∀ a, t' ≠ TSetAccountType a) →
            (∀ b, t' ≠ TSetBillingPeriod b) → (∀ o, t' ≠ TSetOverrides o) →
            ¬ ((∃ p st tr, t' = TSetPlan p st tr) ∨ (∃ a, t' = TSetAccountType a)
               ∨ (∃ b, t' = TSetBillingPeriod b) ∨ (∃ o, t' = TSetOverrides o)))
    as Hnot.
  { intros t' H1 H2 H3 H4 [(? & ? & ? & ?) | [(? & ?) | [(? & ?) | (? & ?)]]];
      [by eapply H1 | by eapply H2 | by eapply H3 | by eapply H4]. }
  assert (∀ (t' : Transition) (P : option string → Prop),
            (∀ code, t' ≠ TApplyPromoCode code) →
            ∀ code, t' = TApplyPromoCode code → P code) as Hnp.
  { intros t' P H code Hc. by destruct (H code). }
  destruct t as [p st tr | a | b | | days | d | code | | o]; simpl.
  - split; [done |]. split; [by apply Hnp |].
    repeat split; eauto 10; discriminate.
  - split; [done |]. split; [by apply Hnp |].
    repeat split; eauto 10; discriminate.
  - split; [done |]. split; [by apply Hnp |].
    repeat split; eauto 10; discriminate.
  - split; [done |]. split; [by apply Hnp |].
    repeat split; eauto; try (intros pc [= <-]; done); try discriminate.
    intros H. by eapply Hnot in H.
  - unfold startBuyerTrial.
    destruct (valid_time (now e + days * day_ms)); simpl; [| by split; [right |]].
    split; [done |]. split; [by apply Hnp |].
    repeat split; eauto; try (intros pc [= <-]; done); try discriminate.
    intros H. by eapply Hnot in H.
  - unfold extendTrial. fold (extended_end e d s).
    destruct (valid_time (extended_end e d s)); simpl; [| by split; [right |]].
    split; [done |]. split; [by apply Hnp |].
    repeat split; eauto; try (intros pc [= <-]; done); try discriminate.
    intros H. by eapply Hnot in H.
  - unfold applyPromoCode.
    case_bool_decide as E; simpl.
    { split; [| done]. left. exists code. split; [done |].
      unfold applyPromoCode. by rewrite bool_decide_eq_true_2. }
    destruct (getPromoConfig (normalize code)) as [promo |] eqn:G; simpl.
    + split; [done |]. split.
      { intros code' [= <-]. unfold applyPromoCode.
        by rewrite bool_decide_eq_false_2, G. }
      repeat split; eauto; try (intros pc [= <-]; done); try discriminate.
      intros H. by eapply Hnot in H.
    + split; [| done]. left. exists code. split; [done |].
      unfold applyPromoCode. rewrite G. by case_bool_decide.
  - split; [done |]. split; [by apply Hnp |].
    repeat split; eauto; try (intros pc [= <-]; done); try discriminate.
    intros H. by eapply Hnot in H.
  - split; [done |]. split; [by apply Hnp |].
    repeat split; eauto 10; discriminate.
Qed.

Lemma persisted_matches_store_witness :
  promoCode buyer_on_premium
  = promoCode (step visitor (TStartBuyerTrial 30) buyer_on_premium)
  ∧ step visitor (TExtendTrial 200000000) initial = initial.
Proof.
  split.
  - assert (ascii_code (TStartBuyerTrial 30)) as Ha
      by (intros code Hc; discriminate Hc).
    pose proof (persisted_matches_store visitor (TStartBuyerTrial 30)
                  buyer_on_premium Ha) as H.
    simpl in H. destruct H as (_ & _ & _ & _ & _ & _ & _ & _ & H & _).
    apply H. reflexivity.
  - assert (ascii_code (TExtendTrial 200000000)) as Ha
      by (intros code Hc; discriminate Hc).
    pose proof (persisted_matches_store visitor (TExtendTrial 200000000)
                  initial Ha) as H.
    simpl in H. destruct H as [_ H]. exact H.
Defined.

(** *** Where a downgrade and a sign-up land *)

Lemma offered_lowest (accountType : option string) (p : Plan) :
  p ∈ getPlansForAccountType accountType →
  (if bool_decide (accountType = Some "buyer") then 1 else 0)
  ≤ getTierLevel (Some (id p)).
Proof.
  unfold getPlansForAccountType. case_bool_decide as Hb; intros Hp.
  - apply list_elem_of_In, filter_In in Hp as [Hp Hs].
    apply list_elem_of_In, elem_of_PLANS in Hp as [-> | [-> | [-> | [-> | ->]]]];
      try discriminate Hs; vm_compute; discriminate.
  - apply elem_of_PLANS in Hp as [-> | [-> | [-> | [-> | ->]]]];
      vm_compute; discriminate.
Qed.

Lemma basic_offered (accountType : option string) :
  plan_basic ∈ getPlansForAccountType accountType.
Proof.
  unfold getPlansForAccountType. case_bool_decide.
  - simpl. apply list_elem_of_here.
  - apply in_PLANS_basic.
Qed.

(** X19. [downgrade] depends on the account type alone and repeating it
    changes nothing. The plan it falls back to is offered to the account
    type, a buyer never landing on the seller-only start plan, and no
    offered plan has a lower tier. *)
Theorem downgrade_lands_on_lowest_offered (s s' : SubState) (p : Plan) :
  downgrade (downgrade s) = downgrade s
  ∧ (accountType s' = accountType s → downgrade s' = downgrade s)
  ∧ getPlanById (planId (downgrade s)) ∈ getPlansForAccountType (accountType s)
  ∧ (p ∈ getPlansForAccountType (accountType s) →
     getTierLevel (planId (downgrade s)) ≤ getTierLevel (Some (id p))).
Proof.
  split; [| split; [| split]].
  - unfold downgrade. simpl. by case_bool_decide.
  - unfold downgrade. by intros ->.
  - unfold downgrade. simpl. case_bool_decide as Hb.
    + rewrite Hb. apply basic_offered.
    + unfold getPlansForAccountType. rewrite (bool_decide_eq_false_2 _ Hb).
      apply in_PLANS_start.
  - intros Hp. apply offered_lowest in Hp.
    unfold downgrade. simpl. by case_bool_decide.
Qed.

Lemma downgrade_lands_on_lowest_offered_witness :
  downgrade buyer_on_premium = downgrade lapsed_buyer
  ∧ getTierLevel (planId (downgrade provider_on_premium))
    ≤ getTierLevel (Some (id plan_standard)).
Proof.
  split.
  - destruct (downgrade_lands_on_lowest_offered lapsed_buyer buyer_on_premium
                plan_basic) as (_ & Hsame & _). apply Hsame. reflexivity.
  - destruct (downgrade_lands_on_lowest_offered provider_on_premium
                provider_on_premium plan_standard) as (_ & _ & _ & Hlow).
    apply Hlow. apply in_PLANS_standard.
Defined.

(** X20. The sign-up path of Register.jsx leaves every account type on the
    first and lowest plan offered to it ([basic] for a buyer, [start]
    otherwise), with status [active] and no trial end: the store is not in
    trial, and no later [hasFeature] or [hasTier] call downgrades it. *)
Theorem signup_store_spec (a : option string) (e : Env)
    (featureKey : string) (requiredTier : Z) (s : SubState) :
  let s' := Register.signup_store a s in
  head (getPlansForAccountType a) = Some (getPlanById (planId s'))
  ∧ accountType s' = a
  ∧ status s' = "active" ∧ trialEndsAt s' = None
  ∧ isTrial e s' = false
  ∧ snd (hasFeature e featureKey s') = s'
  ∧ snd (hasTier e requiredTier s') = s'.
Proof.
  intros s'.
  assert (trial_lapsed e s' = false) as Hl by done.
  assert (read_only s' = false) as Hro by done.
  split; [| repeat split].
  - subst s'. unfold Register.signup_store, Register.starting_plan,
      getPlansForAccountType. simpl. by case_bool_decide.
  - unfold hasFeature. rewrite Hl, Hro.
    destruct (_isSuperAdmin e); [done |].
    by destruct (js_get (overrides s') featureKey).
  - unfold hasTier. rewrite Hl, Hro. by destruct (_isSuperAdmin e).
Qed.

(** *** Account type labels *)

(** The first character, when there is one, is an ASCII character. *)
Definition ascii_head (accountType : option string) : Prop :=
  match accountType with
  | Some (String c _) => is_ascii c = true
  | _ => True
  end.

Definition known_account_types : list (option string) :=
  [Some "seller"; Some "buyer"; Some "service_provider"].

(** X21. [getAccountTypeShortLabel] never returns the empty string, and
    [getAccountTypeLabel] gives the label of a known account type and hands
    every other argument back as it came. Where the argument is missing,
    empty or starts with an ASCII character, the short label has at most
    two characters: the three known account types give S, B and SP, a
    missing or empty one gives a question mark, and any other string gives
    its first character with [a]..[z] turned into [A]..[Z]. (Outside ASCII
    the upper-case form of a character may be longer than the character.) *)
Theorem account_type_labels (accountType : option string) :
  getAccountTypeShortLabel accountType ≠ ""
  ∧ (accountType ∉ known_account_types →
     getAccountTypeLabel accountType = accountType)
  ∧ (ascii_head accountType →
     (String.length (getAccountTypeShortLabel accountType) ≤ 2)%nat
     ∧ (accountType ∉ known_account_types →
        getAccountTypeShortLabel accountType
        = match accountType with
          | Some (String c _) => String (upper_char c) EmptyString
          | _ => "?"
          end)).
Proof.
  unfold known_account_types.
  destruct (decide (accountType = Some "seller")) as [-> | N1];
    [split; [done |]; split; [| intros _; split; [simpl; lia |]];
     intros Hn; exfalso; apply Hn; repeat constructor |].
  destruct (decide (accountType = Some "buyer")) as [-> | N2];
    [split; [done |]; split; [| intros _; split; [simpl; lia |]];
     intros Hn; exfalso; apply Hn; repeat constructor |].
  destruct (decide (accountType = Some "service_provider")) as [-> | N3];
    [split; [done |]; split; [| intros _; split; [simpl; lia |]];
     intros Hn; exfalso; apply Hn; repeat constructor |].
  unfold getAccountTypeShortLabel, getAccountTypeLabel, ACCOUNT_TYPES. simpl.
  rewrite !bool_decide_eq_false_2 by done.
  destruct accountType as [[| c a] |]; simpl; repeat split; try done; lia.
Qed.

Lemma account_type_labels_witness :
  getAccountTypeLabel (Some "reseller") = Some "reseller"
  ∧ getAccountTypeShortLabel (Some "reseller") = "R"
  ∧ getAccountTypeShortLabel (Some "") = "?".
Proof.
  assert (Hn : ∀ a, a ≠ "seller" → a ≠ "buyer" → a ≠ "service_provider" →
               Some a ∉ known_account_types).
  { intros a H1 H2 H3 Hin. unfold known_account_types in Hin.
    repeat (apply elem_of_cons in Hin as [Hin | Hin]; [congruence |]).
    by apply elem_of_nil in Hin. }
  split; [| split].
  - destruct (account_type_labels (Some "reseller")) as (_ & H & _).
    apply H, Hn; discriminate.
  - destruct (account_type_labels (Some "reseller")) as (_ & _ & H).
    destruct (H eq_refl) as [_ H']. apply H', Hn; discriminate.
  - destruct (account_type_labels (Some "")) as (_ & _ & H).
    destruct (H I) as [_ H']. apply H', Hn; discriminate.
Defined.

(** * Per-industry subscriptions *)

Module IndustrySubscriptionsFacts.
Import IndustrySubscriptions.

(** A tier name the table knows. *)
Definition known (t : option string) : Prop :=
  is_Some (t ≫= (TIER_LEVELS !!.)).

Lemma TIER_LEVELS_range (k : string) (n : Z) :
  TIER_LEVELS !! k = Some n → 0 ≤ n ≤ 4 ∧ k ≠ "" ∧ k ≠ "start".
Proof.
  revert k n. apply map_Forall_lookup. unfold TIER_LEVELS. simpl.
  repeat (apply map_Forall_insert_2; [repeat split; (lia || done) |]).
  apply map_Forall_empty.
Qed.

Lemma known_level (t : option string) :
  known t → ∃ n, t ≫= (TIER_LEVELS !!.) = Some n ∧ 0 ≤ n ≤ 4.
Proof.
  intros [n Hn]. exists n. split; [done |].
  destruct t as [k |]; [| discriminate Hn]. by apply (TIER_LEVELS_range k).
Qed.

Lemma unknown_level (t : option string) :
  ¬ known t → t ≫= (TIER_LEVELS !!.) = None.
Proof.
  unfold known. intros H.
  destruct (t ≫= (TIER_LEVELS !!.)) as [n |]; [| done].
  exfalso. apply H. by eexists.
Qed.

Lemma hasMinimumTier_known (a b : option string) :
  hasMinimumTier a b = true → known a ∧ known b.
Proof.
  unfold hasMinimumTier. intros H. apply Z.leb_le in H.
  destruct (decide (known b)) as [Kb | Kb].
  - split; [| done]. destruct (decide (known a)) as [Ka | Ka]; [done |].
    destruct (known_level b Kb) as (n & Hn & Hr).
    rewrite (unknown_level a Ka), Hn in H. simpl in H. exfalso. lia.
  - rewrite (unknown_level b Kb) in H. simpl in H.
    destruct (decide (known a)) as [Ka | Ka].
    + destruct (known_level a Ka) as (n & Hn & Hr). rewrite Hn in H.
      simpl in H. exfalso. lia.
    + rewrite (unknown_level a Ka) in H. simpl in H. exfalso. lia.
Qed.

(** A tier argument that names a member inherited from [Object.prototype]. *)
Definition inherited (t : option string) : bool :=
  match t with
  | Some k => bool_decide (k ∈ Object_prototype_names)
  | None => false
  end.

(** X22. [hasMinimumTier] orders the tier names the table knows and
    refuses everything else. Unless both arguments are names inherited from
    [Object.prototype], it holds only between two known names; it is
    transitive; a name that is not inherited meets itself exactly when it
    is known; and the known names are exactly those that meet [free]. *)
Theorem hasMinimumTier_order (a b c : option string) :
  (inherited a && inherited b = false →
   hasMinimumTier a b = true → known a ∧ known b)
  ∧ (hasMinimumTier a b = true → hasMinimumTier b c = true →
     hasMinimumTier a c = true)
  ∧ (inherited a = false → (hasMinimumTier a a = true ↔ known a))
  ∧ (hasMinimumTier a (Some "free") = true ↔ known a).
Proof.
  split; [intros _; apply hasMinimumTier_known |]. split; [| split].
  - intros Hab Hbc.
    destruct (hasMinimumTier_known a b Hab) as [Ka Kb].
    destruct (hasMinimumTier_known b c Hbc) as [_ Kc].
    destruct (known_level a Ka) as (na & Ha & _).
    destruct (known_level b Kb) as (nb & Hb & _).
    destruct (known_level c Kc) as (nc & Hc & _).
    unfold hasMinimumTier in *. rewrite Ha, Hb, Hc in *. simpl in *.
    apply Z.leb_le in Hab, Hbc. apply Z.leb_le. lia.
  - intros _. split; [intros H; by apply (hasMinimumTier_known a a) |].
    intros Ka. destruct (known_level a Ka) as (na & Ha & _).
    unfold hasMinimumTier. rewrite Ha. simpl. apply Z.leb_refl.
  - split; [intros H; by apply (hasMinimumTier_known a (Some "free")) |].
    intros Ka. destruct (known_level a Ka) as (na & Ha & Hr).
    unfold hasMinimumTier. rewrite Ha.
    assert (Some "free" ≫= (TIER_LEVELS !!.) = Some 0) as -> by reflexivity.
    simpl. apply Z.leb_le. lia.
Qed.

Lemma hasMinimumTier_order_witness :
  hasMinimumTier (Some "premium") (Some "basic") = true
  ∧ (known (Some "premium") ∧ known (Some "basic"))
  ∧ ¬ known (Some "gold")
  ∧ ¬ known None.
Proof.
  destruct (hasMinimumTier_order (Some "premium") (Some "standard") (Some "basic"))
    as (_ & Htrans & _).
  split; [| split; [| split]].
  - apply Htrans; reflexivity.
  - destruct (hasMinimumTier_order (Some "premium") (Some "basic") None)
      as (Hk' & _). apply Hk'; reflexivity.
  - destruct (hasMinimumTier_order (Some "gold") None None) as (_ & _ & Hs & _).
    intros K. apply (Hs eq_refl) in K. discriminate K.
  - destruct (hasMinimumTier_order None None None) as (_ & _ & Hs & _).
    intros K. apply (Hs eq_refl) in K. discriminate K.
Defined.

(** X23. The tier names are the plan ids of the catalog with one
    exception: the free plan is [start] in the catalog and [free] here.
    Between two catalog plans, compared by their ids, [hasMinimumTier]
    holds exactly when neither is the start plan and the tier of the first
    is at least that of the second. *)
Theorem hasMinimumTier_on_plan_ids (p q : Plan) :
  p ∈ PLANS → q ∈ PLANS →
  (hasMinimumTier (Some (id p)) (Some (id q)) = true ↔
   id p ≠ "start" ∧ id q ≠ "start"
   ∧ getTierLevel (Some (id q)) ≤ getTierLevel (Some (id p))).
Proof.
  intros Hp Hq.
  apply elem_of_PLANS in Hp as [-> | [-> | [-> | [-> | ->]]]];
    apply elem_of_PLANS in Hq as [-> | [-> | [-> | [-> | ->]]]];
    vm_compute; split;
    first [ intros H; discriminate H
          | intros (H1 & H2 & H3); first [by destruct H1 | by destruct H2 | by destruct H3]
          | intros _; repeat split; discriminate
          | reflexivity
          | intros _; reflexivity ].
Qed.

Lemma hasMinimumTier_on_plan_ids_witness :
  hasMinimumTier (Some "enterprise") (Some "basic") = true
  ∧ hasMinimumTier (Some "start") (Some "start") = false.
Proof.
  split.
  - apply (hasMinimumTier_on_plan_ids plan_enterprise plan_basic);
      [apply in_PLANS_enterprise | apply in_PLANS_basic |].
    repeat split; vm_compute; discriminate.
  - apply not_true_is_false. intros H.
    apply (hasMinimumTier_on_plan_ids plan_start plan_start) in H as [H _];
      [by destruct H | apply in_PLANS_start | apply in_PLANS_start].
Defined.

Lemma find_first {A} (f : A → bool) (l : list A) (x : A) :
  List.find f l = Some x ↔
  ∃ l1 l2, l = (l1 ++ x :: l2)%list ∧ f x = true ∧ ∀ y, y ∈ l1 → f y = false.
Proof.
  induction l as [| a l IH]; simpl.
  - split; [done |]. intros (l1 & l2 & E & _). by destruct l1.
  - destruct (f a) eqn:Fa.
    + split.
      * intros [= <-]. exists [], l. repeat split; [done |].
        intros y Hy. by apply elem_of_nil in Hy.
      * intros (l1 & l2 & E & Fx & Hl1). destruct l1 as [| b l1].
        -- simpl in E. by injection E as -> _.
        -- simpl in E. injection E as <- _.
           rewrite (Hl1 a) in Fa by apply list_elem_of_here. discriminate Fa.
    + rewrite IH. split.
      * intros (l1 & l2 & -> & Fx & Hl1). exists (a :: l1), l2.
        repeat split; [done |]. intros y Hy.
        apply elem_of_cons in Hy as [-> | Hy]; [done | by apply Hl1].
      * intros (l1 & l2 & E & Fx & Hl1). destruct l1 as [| b l1].
        -- simpl in E. injection E as -> _. rewrite Fx in Fa. discriminate Fa.
        -- simpl in E. injection E as <- ->. exists l1, l2.
           repeat split; [done |]. intros y Hy. apply Hl1.
           by apply list_elem_of_further.
Qed.

(** X24. Only the first active row of an industry counts. Access is
    granted exactly when the rows split into rows that are not active rows
    of the industry, then an active row of it whose tier meets the
    required one; rows after it, whatever their tier, are not looked at.
    Granted access implies that [getTierForIndustry] names a tier, and
    without an active row of the industry there is neither access nor
    tier. *)
Theorem hasIndustryAccess_first_active (i : string) (requiredTier : option string)
    (subscriptions : list Subscription) :
  (hasIndustryAccess i requiredTier subscriptions = true ↔
   ∃ l1 sub l2, subscriptions = (l1 ++ sub :: l2)%list
     ∧ (∀ x, x ∈ l1 → is_active_for i x = false)
     ∧ is_active_for i sub = true
     ∧ hasMinimumTier (tier sub) requiredTier = true)
  ∧ (hasIndustryAccess i requiredTier subscriptions = true →
     is_Some (getTierForIndustry i subscriptions))
  ∧ ((∀ x, x ∈ subscriptions → is_active_for i x = false) →
     hasIndustryAccess i requiredTier subscriptions = false
     ∧ getTierForIndustry i subscriptions = None).
Proof.
  unfold hasIndustryAccess, getTierForIndustry. split; [| split].
  - destruct (List.find (is_active_for i) subscriptions) as [found |] eqn:F.
    + apply find_first in F as (l1 & l2 & E & Fx & Hl1). split.
      * intros H. exists l1, found, l2. by repeat split.
      * intros (l1' & sub & l2' & E' & Hl1' & Fs & Hm).
        assert (List.find (is_active_for i) subscriptions = Some sub) as F'.
        { apply find_first. exists l1', l2'. by repeat split. }
        assert (List.find (is_active_for i) subscriptions = Some found) as F''.
        { apply find_first. exists l1, l2. by repeat split. }
        rewrite F' in F''. by injection F'' as ->.
    + split; [done |]. intros (l1 & sub & l2 & E & Hl1 & Fs & Hm).
      assert (List.find (is_active_for i) subscriptions = Some sub) as F'.
      { apply find_first. exists l1, l2. by repeat split. }
      rewrite F in F'. discriminate F'.
  - destruct (List.find (is_active_for i) subscriptions) as [found |];
      [| done].
    intros H. apply hasMinimumTier_known in H as [[n Hn] _].
    destruct (tier found) as [t |]; [| discriminate Hn].
    simpl in Hn. apply TIER_LEVELS_range in Hn as (_ & Ht & _).
    rewrite (bool_decide_eq_false_2 _ Ht). by eexists.
  - intros H. by rewrite (find_all_false _ _ H).
Qed.

Definition rows : list Subscription :=
  [ mkSubscription (Some "automotive") (Some "premium") "pending";
    mkSubscription (Some "automotive") (Some "basic") "active";
    mkSubscription (Some "automotive") (Some "enterprise") "active" ].

Lemma hasIndustryAccess_first_active_witness :
  is_Some (getTierForIndustry "automotive" rows)
  ∧ (hasIndustryAccess "medical" (Some "free") rows = false
     ∧ getTierForIndustry "medical" rows = None).
Proof.
  split.
  - apply (hasIndustryAccess_first_active "automotive" (Some "basic") rows).
    reflexivity.
  - apply (hasIndustryAccess_first_active "medical" (Some "free") rows).
    intros x Hx. unfold rows in Hx.
    repeat (apply elem_of_cons in Hx as [-> | Hx]; [reflexivity |]).
    by apply elem_of_nil in Hx.
Defined.

(** The later Enterprise row does not help against the earlier Basic one. *)
Example first_row_decides :
  hasIndustryAccess "automotive" (Some "standard") rows = false.
Proof. reflexivity. Qed.

End IndustrySubscriptionsFacts.

(** * Lower-casing *)








Module IndustryGuardFacts.
Import IndustrySubscriptions.



End IndustryGuardFacts.

(** * Superadmin *)

Module SuperadminAuthFacts.
Import SuperadminAuth.





End SuperadminAuthFacts.

(** * Industry and category selection *)

Module IndustryStoreFacts.
Import IndustryStore.

Lemma elem_of_without (x y : string) (l : list string) :
  y ∈ without x l ↔ y ∈ l ∧ y ≠ x.
Proof.
  unfold without. rewrite !list_elem_of_In, filter_In, negb_true_iff.
  by rewrite bool_decide_eq_false.
Qed.

Lemma without_absent (x : string) (l : list string) :
  x ∉ l → without x l = l.
Proof.
  induction l as [| a l IH]; [done |]. intros H. simpl.
  rewrite bool_decide_eq_false_2 by (intros ->; apply H, list_elem_of_here).
  simpl. f_equal. apply IH. intros Hx. apply H. by apply list_elem_of_further.
Qed.

Lemma without_snoc (x : string) (l : list string) :
  x ∉ l → without x (l ++ [x])%list = l.
Proof.
  intros H. unfold without. rewrite List.filter_app. simpl.
  rewrite bool_decide_eq_true_2 by done. simpl.
  rewrite app_nil_r. by apply without_absent.
Qed.

Lemma NoDup_without (x : string) (l : list string) :
  NoDup l → NoDup (without x l).
Proof.
  induction 1 as [| a l Ha Hl IH]; simpl; [constructor |].
  destruct (negb (bool_decide (a = x))); [| done].
  constructor; [| done]. rewrite elem_of_without. tauto.
Qed.

Lemma NoDup_snoc_fresh (x : string) (l : list string) :
  x ∉ l → NoDup l → NoDup (l ++ [x])%list.
Proof.
  intros Hx Hl. apply NoDup_app. repeat split; [done | | apply NoDup_singleton].
  intros y Hy Hy'. apply list_elem_of_singleton in Hy' as ->. done.
Qed.

(** X28. [selectIndustry] answers [true] exactly when the industry is
    selected afterwards, and on [false] the store is untouched. It never
    drops an industry, never touches the categories, never repeats an
    entry in a list that had none repeated, and never lets the list grow
    beyond the larger of its old length and [maxCount]. Calling it again
    gives the same answer and the same store. *)
Theorem selectIndustry_spec (industryId : string) (maxCount : Z) (s : State) :
  let r := selectIndustry industryId maxCount s in
  (fst r = true ↔ isSelected industryId (snd r) = true)
  ∧ (fst r = false → snd r = s)
  ∧ (∀ j, isSelected j s = true → isSelected j (snd r) = true)
  ∧ selectedCategories (snd r) = selectedCategories s
  ∧ (NoDup (selectedIndustries s) → NoDup (selectedIndustries (snd r)))
  ∧ Z.of_nat (List.length (selectedIndustries (snd r)))
    ≤ Z.max (Z.of_nat (List.length (selectedIndustries s))) maxCount
  ∧ selectIndustry industryId maxCount (snd r) = r.
Proof.
  unfold selectIndustry, isSelected, includes.
  case_bool_decide as Hin; simpl.
  { rewrite !bool_decide_eq_true_2 by done. repeat split; try done. lia. }
  destruct (maxCount <=? Z.of_nat (List.length (selectedIndustries s))) eqn:Hmax;
    simpl.
  { rewrite !bool_decide_eq_false_2 by done. rewrite Hmax.
    repeat split; try done. lia. }
  apply Z.leb_gt in Hmax.
  rewrite !bool_decide_eq_true_2 by (apply elem_of_app; right; apply list_elem_of_here).
  repeat split; try done.
  - intros j Hj. apply bool_decide_eq_true in Hj.
    apply bool_decide_eq_true_2, elem_of_app. by left.
  - intros Hnd. by apply NoDup_snoc_fresh.
  - rewrite length_app. simpl. lia.
Qed.

Definition nothing_selected : State := mkState [] ∅.

Lemma selectIndustry_spec_witness :
  snd (selectIndustry "medical" 1
         (snd (selectIndustry "automotive" 1 nothing_selected)))
  = snd (selectIndustry "automotive" 1 nothing_selected).
Proof.
  destruct (selectIndustry_spec "medical" 1
              (snd (selectIndustry "automotive" 1 nothing_selected)))
    as (_ & H & _).
  apply H. reflexivity.
Defined.

Lemma categories_at_plain (cats : gmap string (list string)) (i : string) :
  i ∉ Object_prototype_names →
  categories_at cats i = Some (default [] (cats !! i)).
Proof.
  intros Hi. unfold categories_at, js_get.
  destruct (cats !! i); [done |]. by rewrite bool_decide_eq_false_2.
Qed.

Lemma categories_at_inherited (cats : gmap string (list string)) (i : string) :
  js_get cats i = Inherited → categories_at cats i = None.
Proof. unfold categories_at. by intros ->. Qed.

(** X29. After [deselectIndustry] the industry is not selected and has no
    categories left: asking for them gives the empty list, or, for a name
    inherited from [Object.prototype], the inherited member. Every other
    industry keeps its selection and its categories; a list without
    repetition stays so. Deselecting an industry that was just added by
    [selectIndustry] gives back the list of industries there was before. *)
Theorem deselectIndustry_spec (industryId j : string) (maxCount : Z) (s : State) :
  isSelected industryId (deselectIndustry industryId s) = false
  ∧ selectedCategories (deselectIndustry industryId s) !! industryId = None
  ∧ getCategoriesForIndustry industryId (deselectIndustry industryId s)
    = (if bool_decide (industryId ∈ Object_prototype_names) then None else Some [])
  ∧ (j ≠ industryId →
     isSelected j (deselectIndustry industryId s) = isSelected j s
     ∧ getCategoriesForIndustry j (deselectIndustry industryId s)
       = getCategoriesForIndustry j s)
  ∧ (NoDup (selectedIndustries s) →
     NoDup (selectedIndustries (deselectIndustry industryId s)))
  ∧ (isSelected industryId s = false →
     selectedIndustries
       (deselectIndustry industryId (snd (selectIndustry industryId maxCount s)))
     = selectedIndustries s).
Proof.
  unfold isSelected, includes, getCategoriesForIndustry, categories_at, js_get,
    deselectIndustry. simpl.
  split; [| split; [| split; [| split; [| split]]]].
  - apply bool_decide_eq_false_2. rewrite elem_of_without. tauto.
  - by rewrite lookup_delete_eq.
  - rewrite lookup_delete_eq.
    by destruct (bool_decide (industryId ∈ Object_prototype_names)).
  - intros Hj. split.
    + apply bool_decide_ext. rewrite elem_of_without. tauto.
    + by rewrite lookup_delete_ne.
  - apply NoDup_without.
  - intros Hn. apply bool_decide_eq_false in Hn.
    unfold selectIndustry, includes. rewrite (bool_decide_eq_false_2 _ Hn).
    destruct (maxCount <=? Z.of_nat (List.length (selectedIndustries s))); simpl.
    + by apply without_absent.
    + by apply without_snoc.
Qed.

Lemma deselectIndustry_spec_witness :
  selectedIndustries
    (deselectIndustry "medical"
       (snd (selectIndustry "medical" 3
               (snd (selectIndustry "automotive" 1 nothing_selected)))))
  = selectedIndustries (snd (selectIndustry "automotive" 1 nothing_selected))
  ∧ isSelected "automotive"
      (deselectIndustry "medical"
         (snd (selectIndustry "automotive" 1 nothing_selected)))
    = isSelected "automotive"
        (snd (selectIndustry "automotive" 1 nothing_selected)).
Proof.
  split.
  - destruct (deselectIndustry_spec "medical" "automotive" 3
                (snd (selectIndustry "automotive" 1 nothing_selected)))
      as (_ & _ & _ & _ & _ & H).
    apply H. reflexivity.
  - destruct (deselectIndustry_spec "medical" "automotive" 3
                (snd (selectIndustry "automotive" 1 nothing_selected)))
      as (_ & _ & _ & H & _).
    apply H. discriminate.
Defined.

(** What [getCategoriesForIndustry] hands back under [constructor] once
    that name is deselected is the member every object inherits, not a
    list. *)
Example deselectIndustry_inherited_name :
  getCategoriesForIndustry "constructor"
    (deselectIndustry "constructor" nothing_selected) = None
  ∧ getCategoriesForIndustry "automotive"
      (deselectIndustry "automotive" nothing_selected) = Some [].
Proof. split; reflexivity. Qed.

(** No industry is mapped to an empty list of categories. *)
Definition tidy (s : State) : Prop :=
  ∀ i l, selectedCategories s !! i = Some l → l ≠ [].

Lemma tidy_nothing_selected : tidy nothing_selected.
Proof.
  intros i l H. unfold nothing_selected in H. simpl in H.
  by rewrite lookup_empty in H.
Qed.

Lemma tidy_insert (i : string) (l : list string) (s : State) :
  l ≠ [] → tidy s →
  tidy (mkState (selectedIndustries s) (<[i := l]> (selectedCategories s))).
Proof.
  intros Hl Ht k m. simpl. destruct (decide (k = i)) as [-> | Hk].
  - rewrite lookup_insert_eq. by intros [= <-].
  - rewrite lookup_insert_ne by done. apply Ht.
Qed.

Lemma tidy_delete (i : string) (l : list string) (s : State) :
  tidy s →
  tidy (mkState l (delete i (selectedCategories s))).
Proof.
  intros Ht k m. simpl. destruct (decide (k = i)) as [-> | Hk].
  - by rewrite lookup_delete_eq.
  - rewrite lookup_delete_ne by done. apply Ht.
Qed.

(** X30. The three category functions read [selectedCategories[industryId]]
    and expect an array. Under a name inherited from [Object.prototype]
    that the map does not hold as a key of its own, each of them fails with
    a [TypeError] and the store stays as it is. Under any name that is not
    inherited they return: [selectCategory] answers [true] exactly when the
    category is selected afterwards and leaves the store untouched on
    [false]; [deselectCategory] leaves the category unselected and every
    other category, of this or another industry, as it was. Neither touches
    the selected industries, and together with [deselectIndustry] they keep
    the category map free of empty lists. *)
Theorem categories_spec (industryId categoryId i' c' : string) (maxCount : Z)
    (s : State) :
  (js_get (selectedCategories s) industryId = Inherited →
   selectCategory industryId categoryId maxCount s = None
   ∧ deselectCategory industryId categoryId s = None
   ∧ isCategorySelected industryId categoryId s = None)
  ∧ (industryId ∉ Object_prototype_names →
     ∃ (b : bool) (s' d : State),
       selectCategory industryId categoryId maxCount s = Some (b, s')
       ∧ deselectCategory industryId categoryId s = Some d
       ∧ (b = true ↔ isCategorySelected industryId categoryId s' = Some true)
       ∧ (b = false → s' = s)
       ∧ isCategorySelected industryId categoryId d = Some false
       ∧ ((i', c') ≠ (industryId, categoryId) →
          isCategorySelected i' c' d = isCategorySelected i' c' s)
       ∧ (selectedIndustries s' = selectedIndustries s
          ∧ selectedIndustries d = selectedIndustries s)
       ∧ (tidy s → tidy s' ∧ tidy d ∧ tidy (deselectIndustry industryId s))).
Proof.
  split.
  { intros Hi. unfold selectCategory, deselectCategory, isCategorySelected.
    by rewrite (categories_at_inherited _ _ Hi). }
  intros Hp.
  unfold selectCategory, deselectCategory.
  rewrite (categories_at_plain _ _ Hp).
  set (cats := selectedCategories s).
  set (current := default [] (cats !! industryId)).
  eexists _, _, _. split; [f_equal; apply surjective_pairing |].
  split; [reflexivity |].
  assert (Hsel : ∀ t, isCategorySelected industryId categoryId t
                      = Some (includes categoryId
                                (default [] (selectedCategories t !! industryId)))).
  { intros t. unfold isCategorySelected. by rewrite (categories_at_plain _ _ Hp). }
  split; [| split; [| split; [| split; [| split]]]].
  - rewrite Hsel. unfold includes.
    case_bool_decide as Hin; simpl.
    { fold cats. fold current. by rewrite bool_decide_eq_true_2. }
    destruct (maxCount <=? Z.of_nat (List.length current)); simpl.
    + fold cats. fold current. by rewrite bool_decide_eq_false_2.
    + rewrite lookup_insert_eq. simpl. split; [intros _ | done].
      f_equal. apply bool_decide_eq_true_2, elem_of_app. right.
      apply list_elem_of_here.
  - unfold includes. case_bool_decide; simpl; [done |].
    by destruct (maxCount <=? Z.of_nat (List.length current)).
  - rewrite Hsel. f_equal. unfold includes. apply bool_decide_eq_false_2.
    case_bool_decide as Hlen; simpl.
    + rewrite lookup_delete_eq. simpl. apply not_elem_of_nil.
    + rewrite lookup_insert_eq. simpl. rewrite elem_of_without. tauto.
  - intros Hne.
    destruct (decide (i' = industryId)) as [-> | Hi].
    + assert (c' ≠ categoryId) as Hc by congruence.
      unfold isCategorySelected. rewrite !(categories_at_plain _ _ Hp).
      f_equal. unfold includes. apply bool_decide_ext.
      case_bool_decide as Hlen; simpl.
      * rewrite lookup_delete_eq. simpl. fold cats. fold current.
        split; [intros H; by apply elem_of_nil in H |].
        intros H. apply nil_length_inv in Hlen.
        assert (c' ∈ without categoryId current) as H'
          by (rewrite elem_of_without; tauto).
        rewrite Hlen in H'. by apply elem_of_nil in H'.
      * rewrite lookup_insert_eq. simpl. fold cats. fold current.
        rewrite elem_of_without. tauto.
    + unfold isCategorySelected, categories_at, js_get.
      case_bool_decide; simpl;
        [by rewrite lookup_delete_ne | by rewrite lookup_insert_ne].
  - split; [| done]. unfold includes. case_bool_decide; simpl; [done |].
    by destruct (maxCount <=? Z.of_nat (List.length current)).
  - intros Ht. split; [| split].
    + unfold includes. case_bool_decide; simpl; [done |].
      destruct (maxCount <=? Z.of_nat (List.length current)); simpl; [done |].
      apply tidy_insert; [by destruct current | done].
    + case_bool_decide as Hlen.
      * by apply tidy_delete.
      * apply tidy_insert; [| done]. intros E. apply Hlen. by rewrite E.
    + by apply tidy_delete.
Qed.

Lemma automotive_not_inherited : "automotive" ∉ Object_prototype_names.
Proof.
  apply (proj1 (bool_decide_eq_false ("automotive" ∈ Object_prototype_names))).
  reflexivity.
Qed.

Lemma categories_spec_witness :
  selectCategory "constructor" "presses" 5 nothing_selected = None
  ∧ isCategorySelected "constructor" "presses" nothing_selected = None
  ∧ (∃ s', selectCategory "automotive" "presses" 1 nothing_selected
           = Some (true, s')
           ∧ isCategorySelected "automotive" "presses" s' = Some true
           ∧ tidy s')
  ∧ selectCategory "automotive" "lathes" 0 nothing_selected
    = Some (false, nothing_selected).
Proof.
  split; [| split; [| split]].
  - destruct (categories_spec "constructor" "presses" "constructor" "presses" 5
                nothing_selected) as [H _].
    destruct (H eq_refl) as (H1 & _). exact H1.
  - destruct (categories_spec "constructor" "presses" "constructor" "presses" 5
                nothing_selected) as [H _].
    destruct (H eq_refl) as (_ & _ & H3). exact H3.
  - destruct (categories_spec "automotive" "presses" "automotive" "presses" 1
                nothing_selected) as [_ H].
    destruct (H automotive_not_inherited)
      as (b & s' & d & Hs & _ & Hb & _ & _ & _ & _ & Ht).
    assert (b = true) as ->.
    { vm_compute in Hs. by injection Hs as <- _. }
    exists s'. split; [exact Hs |]. split; [by apply Hb |].
    apply Ht, tidy_nothing_selected.
  - destruct (categories_spec "automotive" "lathes" "automotive" "lathes" 0
                nothing_selected) as [_ H].
    destruct (H automotive_not_inherited)
      as (b & s' & d & Hs & _ & _ & Hb & _).
    assert (b = false) as ->.
    { vm_compute in Hs. by injection Hs as <- _. }
    by rewrite Hs, (Hb eq_refl).
Defined.

End IndustryStoreFacts.
